(** * Verified-boot structure verifier (firmware/lib/vboot_common.c)

    A shallow embedding of the key-block and preamble verifiers of
    [vboot_common.c], and the properties of the specification settled
    against it.

    Conventions of the embedding.
    - The target is LP64: [size_t], pointers and [uint64_t] are 64 bits wide.
      A [uint64_t] is a [Z] in [0, 2^64); every C addition or subtraction on
      it is followed by [to_uint64], the wrap-around the hardware performs.
    - Memory is a total map from addresses to bytes.  A structure is a
      view into it: a field access [p->f] is a little-endian load at
      [p + offsetof(f)].
    - [NULL] is the address 0.
    - The verifiers run in a writer monad that logs each call of a
      cryptographic primitive, so that the order of checks and
      cryptographic work can be stated. *)

From Stdlib Require Import ZArith List Lia Bool.
From coqutil Require Import Byte Word.LittleEndianList.
Import ListNotations.
Local Open Scope Z_scope.

(** ** Machine integers *)

(** [(uint64_t)x]. *)
Definition to_uint64 (x : Z) : Z := x mod 2 ^ 64.

(** [(int)x] for a 32-bit two's complement [int]: the value is reduced
    modulo 2^32 into [-2^31, 2^31).  C leaves the conversion of a value out
    of range to the implementation; this reduction is the one GCC and Clang
    document. *)
Definition to_int (x : Z) : Z := (x + 2 ^ 31) mod 2 ^ 32 - 2 ^ 31.

Definition is_uint64 (x : Z) : Prop := 0 <= x < 2 ^ 64.

(** ** Bounds arithmetic (vboot_common.c, lines 25-69) *)

(** [OffsetOf]: [(uint64_t)(size_t)ptr - (uint64_t)(size_t)base]. *)
Definition OffsetOf (base ptr : Z) : Z :=
  to_uint64 (to_uint64 ptr - to_uint64 base).

(** [VerifyMemberInside]: 0 if inside, 1 if error.  [end_] is the C
    local [end]; [end += member_data_offset] rebinds it. *)
Definition VerifyMemberInside (parent parent_size member member_size
                               member_data_offset member_data_size : Z) : Z :=
  let end_ := OffsetOf parent member in
  if end_ >? parent_size then 1
  else if to_uint64 (end_ + member_size) >? parent_size then 1
  else
    let end_ := to_uint64 (end_ + member_data_offset) in
    if end_ >? parent_size then 1
    else if to_uint64 (end_ + member_data_size) >? parent_size then 1
    else 0.

(** The member-inside predicate as section 4.1 of the specification words
    it: four conditions over the mathematical integers, so that a sum that
    would leave the 64-bit range exceeds every [parent_size] and counts as
    outside. *)
Definition member_inside_spec (parent_base parent_size member_base
                               member_header_size payload_offset payload_size : Z)
  : Prop :=
  (member_base >= parent_base /\ member_base - parent_base <= parent_size) /\
  (member_base - parent_base) + member_header_size <= parent_size /\
  (member_base - parent_base) + payload_offset <= parent_size /\
  (member_base - parent_base) + payload_offset + payload_size <= parent_size.

(** ** Memory *)

Definition mem := Z -> byte.

(** The [n] bytes at [p], [p+1], ... (addresses wrap at 2^64). *)
Definition read_bytes (m : mem) (p n : Z) : list byte :=
  map (fun i => m (to_uint64 (p + Z.of_nat i))) (seq 0 (Z.to_nat n)).

(** Little-endian load of an [n]-byte unsigned field. *)
Definition load (m : mem) (p n : Z) : Z := le_combine (read_bytes m p n).

Definition write_bytes (m : mem) (p : Z) (bs : list byte) : mem :=
  fun a =>
    let i := to_uint64 (a - p) in
    if i <? Z.of_nat (length bs) then nth (Z.to_nat i) bs Byte.x00 else m a.

(** Little-endian store of an [n]-byte unsigned field. *)
Definition store (m : mem) (p : Z) (n : nat) (v : Z) : mem :=
  write_bytes m p (le_split n v).

(** [Memcpy(dest, src, n)].  C leaves the copy of overlapping ranges
    undefined; here the source bytes are read before the destination is
    written. *)
Definition Memcpy (m : mem) (dest src n : Z) : mem :=
  write_bytes m dest (read_bytes m src n).

(** Address of the field at offset [off] of the structure at [p]. *)
Definition field (p off : Z) : Z := to_uint64 (p + off).

(** A memory holding [bs] at [base] and zero elsewhere. *)
Definition mem_of_bytes (base : Z) (bs : list byte) : mem :=
  write_bytes (fun _ => Byte.x00) base bs.

(** ** Structures

    Modelled from the spec: the declarations of vboot_struct.h are not part
    of the sources at hand.  Section 3 gives [VbSignature] and [VbPublicKey]
    as packed sequences of little-endian unsigned 64-bit fields, in the
    order used here. *)

Definition sizeof_VbSignature : Z := 24.
Definition sig_offset (m : mem) (sig : Z) : Z := load m (field sig 0) 8.
Definition sig_size (m : mem) (sig : Z) : Z := load m (field sig 8) 8.
Definition data_size (m : mem) (sig : Z) : Z := load m (field sig 16) 8.

Definition sizeof_VbPublicKey : Z := 32.
Definition offsetof_key_offset : Z := 0.
Definition offsetof_key_size : Z := 8.
Definition offsetof_algorithm : Z := 16.
Definition offsetof_key_version : Z := 24.
Definition key_offset (m : mem) (key : Z) : Z := load m (field key offsetof_key_offset) 8.
Definition key_size (m : mem) (key : Z) : Z := load m (field key offsetof_key_size) 8.
Definition algorithm (m : mem) (key : Z) : Z := load m (field key offsetof_algorithm) 8.
Definition key_version (m : mem) (key : Z) : Z := load m (field key offsetof_key_version) 8.

(** Layout of the three containers and the constants of vboot_struct.h the
    verifiers use: taken as parameters.  [version_width] is the size in
    bytes of the [header_version_major] fields. *)
Record StructLayout := {
  version_width : Z;
  KEY_BLOCK_MAGIC : list byte;
  KEY_BLOCK_MAGIC_SIZE : Z;
  KEY_BLOCK_HEADER_VERSION_MAJOR : Z;
  FIRMWARE_PREAMBLE_HEADER_VERSION_MAJOR : Z;
  KERNEL_PREAMBLE_HEADER_VERSION_MAJOR : Z;
  (* VbKeyBlockHeader *)
  sizeof_VbKeyBlockHeader : Z;
  kb_magic : Z;
  kb_header_version_major : Z;
  kb_key_block_size : Z;
  kb_key_block_signature : Z;
  kb_key_block_checksum : Z;
  kb_data_key : Z;
  (* VbFirmwarePreambleHeader *)
  sizeof_VbFirmwarePreambleHeader : Z;
  fp_preamble_size : Z;
  fp_preamble_signature : Z;
  fp_header_version_major : Z;
  fp_kernel_subkey : Z;
  fp_body_signature : Z;
  (* VbKernelPreambleHeader *)
  sizeof_VbKernelPreambleHeader : Z;
  kp_preamble_size : Z;
  kp_preamble_signature : Z;
  kp_header_version_major : Z;
  kp_body_signature : Z
}.

(** ** The cryptographic library

    The RSA and SHA primitives are external collaborators, specified at
    their contracts only: a verdict is a function of the key, the bytes
    hashed and the signature payload. *)

Record RSAPublicKey := {
  rsa_material : list byte;
  rsa_algorithm : Z
}.

Record CryptoLib := {
  kNumAlgorithms : Z;
  siglen_map : Z -> Z;
  SHA512_DIGEST_ALGORITHM : Z;
  RSAProcessedKeySize : Z -> Z;
  RSAPublicKeyFromBuf : list byte -> Z -> option RSAPublicKey;
  RSAVerifyBinary_f : RSAPublicKey -> list byte -> Z -> list byte -> Z -> Z;
  RSAVerifyBinaryWithDigest_f : RSAPublicKey -> list byte -> list byte -> Z -> Z;
  DigestBuf : list byte -> Z -> Z -> list byte
}.

Definition SHA512_DIGEST_SIZE : Z := 64.

(** Modelled from the spec: [SafeMemcmp] (utility.h) is the constant-time
    comparison of the first [n] bytes of two buffers, 0 when they are
    equal. *)
Definition SafeMemcmp (s1 s2 : list byte) (n : Z) : Z :=
  if list_eq_dec Byte.byte_eq_dec (firstn (Z.to_nat n) s1) (firstn (Z.to_nat n) s2)
  then 0 else 1.

(** ** Return codes, in the order of [kVbootErrors] *)

Inductive VbootError :=
| VBOOT_SUCCESS
| VBOOT_KEY_BLOCK_INVALID
| VBOOT_KEY_BLOCK_SIGNATURE
| VBOOT_KEY_BLOCK_HASH
| VBOOT_PUBLIC_KEY_INVALID
| VBOOT_PREAMBLE_INVALID
| VBOOT_PREAMBLE_SIGNATURE.

(** ** Calls of the cryptographic primitives *)

Inductive Event :=
| EvDigestBuf (data len alg : Z)
| EvRSAVerifyBinary (data len sig alg : Z)
| EvRSAVerifyBinaryWithDigest (sig alg : Z).

Definition Traced (A : Type) : Type := A * list Event.

Definition ret {A} (a : A) : Traced A := (a, []).

Definition bind {A B} (c : Traced A) (k : A -> Traced B) : Traced B :=
  let (a, t1) := c in let (b, t2) := k a in (b, t1 ++ t2).

Definition call {A} (e : Event) (a : A) : Traced A := (a, [e]).

Notation "x <- c ;; k" := (bind c (fun x => k))
  (at level 61, c at next level, right associativity).

Definition result {A} (c : Traced A) : A := fst c.
Definition trace {A} (c : Traced A) : list Event := snd c.

(** ** Accessors and wrappers (lines 30-85) *)

Definition GetPublicKeyData (m : mem) (key : Z) : Z := to_uint64 (key + key_offset m key).
Definition GetPublicKeyDataC := GetPublicKeyData.
Definition GetSignatureData (m : mem) (sig : Z) : Z := to_uint64 (sig + sig_offset m sig).
Definition GetSignatureDataC := GetSignatureData.

Definition VerifyPublicKeyInside (m : mem) (parent parent_size key : Z) : Z :=
  VerifyMemberInside parent parent_size key sizeof_VbPublicKey
                     (key_offset m key) (key_size m key).

Definition VerifySignatureInside (m : mem) (parent parent_size sig : Z) : Z :=
  VerifyMemberInside parent parent_size sig sizeof_VbSignature
                     (sig_offset m sig) (sig_size m sig).

(** ** [PublicKeyCopy] (lines 96-105): returns the status and the memory
    it leaves. *)
Definition PublicKeyCopy (m : mem) (dest src : Z) : Z * mem :=
  if key_size m dest <? key_size m src then (1, m)
  else
    let m := store m (field dest offsetof_key_size) 8 (key_size m src) in
    let m := store m (field dest offsetof_algorithm) 8 (algorithm m src) in
    let m := store m (field dest offsetof_key_version) 8 (key_version m src) in
    let m := Memcpy m (GetPublicKeyData m dest) (GetPublicKeyDataC m src)
                    (key_size m src) in
    (0, m).

(** ** The verifiers (lines 108-358) *)

Section Verifiers.

Variable L : StructLayout.
Variable C : CryptoLib.

(** [PublicKeyToRSA]: [None] is the C [NULL]. *)
Definition PublicKeyToRSA (m : mem) (key : Z) : option RSAPublicKey :=
  if to_uint64 (kNumAlgorithms C) <=? algorithm m key then None
  else if negb (RSAProcessedKeySize C (to_int (algorithm m key))
                =? to_int (key_size m key)) then None
  else
    match RSAPublicKeyFromBuf C
            (read_bytes m (GetPublicKeyDataC m key) (to_int (key_size m key)))
            (to_int (key_size m key)) with
    | None => None
    | Some rsa =>
        Some {| rsa_material := rsa_material rsa;
                rsa_algorithm := to_int (algorithm m key) |}
    end.

(** [VerifyData]: 0 on success, 1 on failure. *)
Definition VerifyData (m : mem) (data size sig : Z) (key : RSAPublicKey)
  : Traced Z :=
  if negb (sig_size m sig =? to_uint64 (siglen_map C (rsa_algorithm key)))
  then ret 1
  else if data_size m sig >? size then ret 1
  else
    ok <- call (EvRSAVerifyBinary data (data_size m sig)
                  (GetSignatureDataC m sig) (rsa_algorithm key))
               (RSAVerifyBinary_f C key
                  (read_bytes m data (data_size m sig)) (data_size m sig)
                  (read_bytes m (GetSignatureDataC m sig) (sig_size m sig))
                  (rsa_algorithm key)) ;;
    if ok =? 0 then ret 1 else ret 0.

(** [VerifyDigest]: the digest is a buffer of the caller. *)
Definition VerifyDigest (m : mem) (digest : list byte) (sig : Z)
                        (key : RSAPublicKey) : Traced Z :=
  if negb (sig_size m sig =? to_uint64 (siglen_map C (rsa_algorithm key)))
  then ret 1
  else
    ok <- call (EvRSAVerifyBinaryWithDigest (GetSignatureDataC m sig)
                  (rsa_algorithm key))
               (RSAVerifyBinaryWithDigest_f C key digest
                  (read_bytes m (GetSignatureDataC m sig) (sig_size m sig))
                  (rsa_algorithm key)) ;;
    if ok =? 0 then ret 1 else ret 0.

(** Fields of the key block at [block]. *)
Definition key_block_size (m : mem) (block : Z) : Z :=
  load m (field block (kb_key_block_size L)) 8.
Definition kb_major (m : mem) (block : Z) : Z :=
  load m (field block (kb_header_version_major L)) (version_width L).

(** The checks of [KeyBlockVerify] that follow the if/else on [key]
    (lines 239-256); [sig] is the signature that branch selected. *)
Definition KeyBlockVerify_signed (m : mem) (block sig : Z) : VbootError :=
  if data_size m sig <? sizeof_VbKeyBlockHeader L then VBOOT_KEY_BLOCK_INVALID
  else if negb (VerifyPublicKeyInside m block (key_block_size m block)
                  (field block (kb_data_key L)) =? 0)
  then VBOOT_KEY_BLOCK_INVALID
  else if negb (VerifyPublicKeyInside m block (data_size m sig)
                  (field block (kb_data_key L)) =? 0)
  then VBOOT_KEY_BLOCK_INVALID
  else VBOOT_SUCCESS.

(** [KeyBlockVerify]; [key] is the address of the root [VbPublicKey], 0
    for [NULL]. *)
Definition KeyBlockVerify (m : mem) (block size key : Z) : Traced VbootError :=
  if negb (SafeMemcmp (read_bytes m (field block (kb_magic L)) (KEY_BLOCK_MAGIC_SIZE L))
                      (KEY_BLOCK_MAGIC L) (KEY_BLOCK_MAGIC_SIZE L) =? 0)
  then ret VBOOT_KEY_BLOCK_INVALID
  else if negb (kb_major m block =? KEY_BLOCK_HEADER_VERSION_MAJOR L)
  then ret VBOOT_KEY_BLOCK_INVALID
  else if size <? key_block_size m block then ret VBOOT_KEY_BLOCK_INVALID
  else if negb (key =? 0) then
    (* Check signature *)
    let sig := field block (kb_key_block_signature L) in
    if negb (VerifySignatureInside m block (key_block_size m block) sig =? 0)
    then ret VBOOT_KEY_BLOCK_INVALID
    else
      match PublicKeyToRSA m key with
      | None => ret VBOOT_PUBLIC_KEY_INVALID
      | Some rsa =>
          if key_block_size m block <? data_size m sig
          then ret VBOOT_KEY_BLOCK_INVALID
          else
            rv <- VerifyData m block size sig rsa ;;
            if negb (rv =? 0) then ret VBOOT_KEY_BLOCK_SIGNATURE
            else ret (KeyBlockVerify_signed m block sig)
      end
  else
    (* Check hash *)
    let sig := field block (kb_key_block_checksum L) in
    if negb (VerifySignatureInside m block (key_block_size m block) sig =? 0)
    then ret VBOOT_KEY_BLOCK_INVALID
    else if negb (sig_size m sig =? SHA512_DIGEST_SIZE)
    then ret VBOOT_KEY_BLOCK_INVALID
    else
      header_checksum <-
        call (EvDigestBuf block (data_size m sig) (SHA512_DIGEST_ALGORITHM C))
             (DigestBuf C (read_bytes m block (data_size m sig))
                        (data_size m sig) (SHA512_DIGEST_ALGORITHM C)) ;;
      if negb (SafeMemcmp header_checksum
                 (read_bytes m (GetSignatureDataC m sig) SHA512_DIGEST_SIZE)
                 SHA512_DIGEST_SIZE =? 0)
      then ret VBOOT_KEY_BLOCK_HASH
      else ret (KeyBlockVerify_signed m block sig).

(** Fields of the firmware preamble at [preamble]. *)
Definition fp_size (m : mem) (preamble : Z) : Z :=
  load m (field preamble (fp_preamble_size L)) 8.
Definition fp_major (m : mem) (preamble : Z) : Z :=
  load m (field preamble (fp_header_version_major L)) (version_width L).

Definition VerifyFirmwarePreamble (m : mem) (preamble size : Z)
                                  (key : RSAPublicKey) : Traced VbootError :=
  let sig := field preamble (fp_preamble_signature L) in
  if negb (fp_major m preamble =? FIRMWARE_PREAMBLE_HEADER_VERSION_MAJOR L)
  then ret VBOOT_PREAMBLE_INVALID
  else if size <? fp_size m preamble then ret VBOOT_PREAMBLE_INVALID
  else if negb (VerifySignatureInside m preamble (fp_size m preamble) sig =? 0)
  then ret VBOOT_PREAMBLE_INVALID
  else if fp_size m preamble <? data_size m sig then ret VBOOT_PREAMBLE_INVALID
  else
    rv <- VerifyData m preamble size sig key ;;
    if negb (rv =? 0) then ret VBOOT_PREAMBLE_SIGNATURE
    else if data_size m sig <? sizeof_VbFirmwarePreambleHeader L
    then ret VBOOT_PREAMBLE_INVALID
    else if negb (VerifySignatureInside m preamble (fp_size m preamble)
                    (field preamble (fp_body_signature L)) =? 0)
    then ret VBOOT_PREAMBLE_INVALID
    else if negb (VerifyPublicKeyInside m preamble (fp_size m preamble)
                    (field preamble (fp_kernel_subkey L)) =? 0)
    then ret VBOOT_PREAMBLE_INVALID
    else ret VBOOT_SUCCESS.

(** Fields of the kernel preamble at [preamble]. *)
Definition kp_size (m : mem) (preamble : Z) : Z :=
  load m (field preamble (kp_preamble_size L)) 8.
Definition kp_major (m : mem) (preamble : Z) : Z :=
  load m (field preamble (kp_header_version_major L)) (version_width L).

Definition VerifyKernelPreamble (m : mem) (preamble size : Z)
                                (key : RSAPublicKey) : Traced VbootError :=
  let sig := field preamble (kp_preamble_signature L) in
  if negb (kp_major m preamble =? KERNEL_PREAMBLE_HEADER_VERSION_MAJOR L)
  then ret VBOOT_PREAMBLE_INVALID
  else if size <? kp_size m preamble then ret VBOOT_PREAMBLE_INVALID
  else if negb (VerifySignatureInside m preamble (kp_size m preamble) sig =? 0)
  then ret VBOOT_PREAMBLE_INVALID
  else
    rv <- VerifyData m preamble size sig key ;;
    if negb (rv =? 0) then ret VBOOT_PREAMBLE_SIGNATURE
    else if data_size m sig <? sizeof_VbKernelPreambleHeader L
    then ret VBOOT_PREAMBLE_INVALID
    else if negb (VerifySignatureInside m preamble (kp_size m preamble)
                    (field preamble (kp_body_signature L)) =? 0)
    then ret VBOOT_PREAMBLE_INVALID
    else ret VBOOT_SUCCESS.

(** The verdict of the RSA primitive on the call [VerifyData] makes. *)
Definition rsa_verdict (m : mem) (data sig : Z) (key : RSAPublicKey) : Z :=
  RSAVerifyBinary_f C key (read_bytes m data (data_size m sig)) (data_size m sig)
    (read_bytes m (GetSignatureDataC m sig) (sig_size m sig)) (rsa_algorithm key).

(** The checks of [KeyBlockVerify] that precede the if/else on [key]. *)
Definition key_block_header_ok (m : mem) (block size : Z) : Prop :=
  SafeMemcmp (read_bytes m (field block (kb_magic L)) (KEY_BLOCK_MAGIC_SIZE L))
             (KEY_BLOCK_MAGIC L) (KEY_BLOCK_MAGIC_SIZE L) = 0 /\
  kb_major m block = KEY_BLOCK_HEADER_VERSION_MAJOR L /\
  key_block_size m block <= size.

(** The digest [KeyBlockVerify] computes in hash mode agrees with the
    payload of the checksum. *)
Definition checksum_matches (m : mem) (block : Z) : Prop :=
  let sig := field block (kb_key_block_checksum L) in
  SafeMemcmp (DigestBuf C (read_bytes m block (data_size m sig))
                        (data_size m sig) (SHA512_DIGEST_ALGORITHM C))
             (read_bytes m (GetSignatureDataC m sig) SHA512_DIGEST_SIZE)
             SHA512_DIGEST_SIZE = 0.

(** The checks each verifier makes before it calls a cryptographic
    primitive, in program order. *)
Definition key_block_leading_checks (m : mem) (block size key : Z) : Prop :=
  key_block_header_ok m block size /\
  if key =? 0 then
    let sig := field block (kb_key_block_checksum L) in
    VerifySignatureInside m block (key_block_size m block) sig = 0 /\
    sig_size m sig = SHA512_DIGEST_SIZE
  else
    let sig := field block (kb_key_block_signature L) in
    VerifySignatureInside m block (key_block_size m block) sig = 0 /\
    exists rsa, PublicKeyToRSA m key = Some rsa /\
      data_size m sig <= key_block_size m block /\
      sig_size m sig = to_uint64 (siglen_map C (rsa_algorithm rsa)) /\
      data_size m sig <= size.

Definition firmware_preamble_leading_checks (m : mem) (preamble size : Z)
                                            (key : RSAPublicKey) : Prop :=
  let sig := field preamble (fp_preamble_signature L) in
  fp_major m preamble = FIRMWARE_PREAMBLE_HEADER_VERSION_MAJOR L /\
  fp_size m preamble <= size /\
  VerifySignatureInside m preamble (fp_size m preamble) sig = 0 /\
  data_size m sig <= fp_size m preamble /\
  sig_size m sig = to_uint64 (siglen_map C (rsa_algorithm key)) /\
  data_size m sig <= size.

Definition kernel_preamble_leading_checks (m : mem) (preamble size : Z)
                                          (key : RSAPublicKey) : Prop :=
  let sig := field preamble (kp_preamble_signature L) in
  kp_major m preamble = KERNEL_PREAMBLE_HEADER_VERSION_MAJOR L /\
  kp_size m preamble <= size /\
  VerifySignatureInside m preamble (kp_size m preamble) sig = 0 /\
  sig_size m sig = to_uint64 (siglen_map C (rsa_algorithm key)) /\
  data_size m sig <= size.

(** The checks each verifier makes after the primitive has accepted: one
    of them fails. *)
Definition key_block_trailing_check_fails (m : mem) (block key : Z) : Prop :=
  let sig := if key =? 0 then field block (kb_key_block_checksum L)
             else field block (kb_key_block_signature L) in
  data_size m sig < sizeof_VbKeyBlockHeader L \/
  VerifyPublicKeyInside m block (key_block_size m block)
    (field block (kb_data_key L)) <> 0 \/
  VerifyPublicKeyInside m block (data_size m sig)
    (field block (kb_data_key L)) <> 0.

Definition firmware_preamble_trailing_check_fails (m : mem) (preamble : Z) : Prop :=
  data_size m (field preamble (fp_preamble_signature L))
    < sizeof_VbFirmwarePreambleHeader L \/
  VerifySignatureInside m preamble (fp_size m preamble)
    (field preamble (fp_body_signature L)) <> 0 \/
  VerifyPublicKeyInside m preamble (fp_size m preamble)
    (field preamble (fp_kernel_subkey L)) <> 0.

Definition kernel_preamble_trailing_check_fails (m : mem) (preamble : Z) : Prop :=
  data_size m (field preamble (kp_preamble_signature L))
    < sizeof_VbKernelPreambleHeader L \/
  VerifySignatureInside m preamble (kp_size m preamble)
    (field preamble (kp_body_signature L)) <> 0.

End Verifiers.

(** ** The verdict of the primitive a verifier calls *)

Section PrimitiveVerdicts.

Variable L : StructLayout.
Variable C : CryptoLib.

(** The primitive [KeyBlockVerify] calls accepts: without a root key the
    digest equals the payload of the checksum; with one, the RSA
    primitive accepts the signature under the key [PublicKeyToRSA] made of
    it. *)
Definition key_block_primitive_accepts (m : mem) (block key : Z) : Prop :=
  if key =? 0 then checksum_matches L C m block
  else exists rsa, PublicKeyToRSA C m key = Some rsa /\
         rsa_verdict C m block (field block (kb_key_block_signature L)) rsa <> 0.

Definition firmware_preamble_primitive_accepts (m : mem) (preamble : Z)
                                               (key : RSAPublicKey) : Prop :=
  rsa_verdict C m preamble (field preamble (fp_preamble_signature L)) key <> 0.

Definition kernel_preamble_primitive_accepts (m : mem) (preamble : Z)
                                             (key : RSAPublicKey) : Prop :=
  rsa_verdict C m preamble (field preamble (kp_preamble_signature L)) key <> 0.

End PrimitiveVerdicts.

(** ** Concrete instances, for runs on explicit inputs *)

(** Modelled from the spec: a layout that follows section 3 to the letter
    (fields in the order listed, every multi-byte field an unsigned 64-bit
    one, the magic "CHROMEOS").  The specification gives no value for the
    major versions; 2 is the one ChromeOS uses.  The general theorems do
    not depend on this instance. *)
Definition spec_layout : StructLayout := {|
  version_width := 8;
  KEY_BLOCK_MAGIC := map byte.of_Z [67; 72; 82; 79; 77; 69; 79; 83];
  KEY_BLOCK_MAGIC_SIZE := 8;
  KEY_BLOCK_HEADER_VERSION_MAJOR := 2;
  FIRMWARE_PREAMBLE_HEADER_VERSION_MAJOR := 2;
  KERNEL_PREAMBLE_HEADER_VERSION_MAJOR := 2;
  sizeof_VbKeyBlockHeader := 112;
  kb_magic := 0;
  kb_header_version_major := 8;
  kb_key_block_size := 24;
  kb_key_block_checksum := 32;
  kb_key_block_signature := 56;
  kb_data_key := 80;
  sizeof_VbFirmwarePreambleHeader := 112;
  fp_header_version_major := 0;
  fp_preamble_size := 16;
  fp_kernel_subkey := 32;
  fp_body_signature := 64;
  fp_preamble_signature := 88;
  sizeof_VbKernelPreambleHeader := 104;
  kp_header_version_major := 0;
  kp_preamble_size := 16;
  kp_body_signature := 56;
  kp_preamble_signature := 80
|}.

(** A stand-in for the cryptographic library: the algorithm table has the
    twelve RSA-1024/2048/4096/8192 x SHA-1/256/512 entries of section 6;
    a digest is the exclusive or of the bytes hashed, repeated over the
    digest length; a signature is the exclusive or of the key material
    and of the bytes signed, repeated over the signature length. *)
Definition xor_bytes (bs : list byte) : Z :=
  fold_right (fun b acc => Z.lxor (byte.unsigned b) acc) 0 bs.

Definition stub_siglen (alg : Z) : Z :=
  if (0 <=? alg) && (alg <? 12) then 128 * 2 ^ (alg / 3) else 0.

Definition stub_sign (key : RSAPublicKey) (data : list byte) (alg : Z) : list byte :=
  repeat (byte.of_Z (xor_bytes (rsa_material key ++ data)))
         (Z.to_nat (stub_siglen alg)).

Definition bytes_eqb (a b : list byte) : bool :=
  if list_eq_dec Byte.byte_eq_dec a b then true else false.

Definition stub_crypto : CryptoLib := {|
  kNumAlgorithms := 12;
  siglen_map := stub_siglen;
  SHA512_DIGEST_ALGORITHM := 2;
  RSAProcessedKeySize := fun alg => 2 * stub_siglen alg + 8;
  RSAPublicKeyFromBuf := fun buf len =>
    if len =? Z.of_nat (length buf)
    then Some {| rsa_material := buf; rsa_algorithm := 12 |} else None;
  RSAVerifyBinary_f := fun key data len sig alg =>
    if bytes_eqb sig (stub_sign key data alg) then 1 else 0;
  RSAVerifyBinaryWithDigest_f := fun key digest sig alg =>
    if bytes_eqb sig (stub_sign key digest alg) then 1 else 0;
  DigestBuf := fun data len alg =>
    repeat (byte.of_Z (xor_bytes data)) (Z.to_nat SHA512_DIGEST_SIZE)
|}.

Definition le64 (v : Z) : list byte := le_split 8 v.

Definition VbSignature_bytes (off size dsize : Z) : list byte :=
  le64 off ++ le64 size ++ le64 dsize.

Definition VbPublicKey_bytes (off size alg ver : Z) : list byte :=
  le64 off ++ le64 size ++ le64 alg ++ le64 ver.

Definition pad (n : nat) (v : Z) : list byte := repeat (byte.of_Z v) n.

(** The key of the concrete runs and the root [VbPublicKey] that holds
    it: a 32-byte header followed by the 264 bytes of an algorithm-0
    key.  [ksize] is the value of its [key_size] field. *)
Definition root_material : list byte := pad 264 90.
Definition root_rsa : RSAPublicKey :=
  {| rsa_material := root_material; rsa_algorithm := 0 |}.
Definition root_key_bytes (ksize : Z) : list byte :=
  VbPublicKey_bytes 32 ksize 0 1 ++ root_material.

(** A key block in [spec_layout]: the 112-byte header, the 8-byte payload
    of the data key at 112, the checksum payload at 120, the signature
    payload at 184; 312 bytes.  [dsize] is the [data_size] of both
    signatures and [ksize] the [key_size] of the data key; checksum and
    signature are computed over the first [dsize] bytes. *)
Definition key_block_prefix (dsize ksize : Z) : list byte :=
  KEY_BLOCK_MAGIC spec_layout ++ le64 2 ++ le64 1 ++ le64 312
  ++ VbSignature_bytes 88 64 dsize
  ++ VbSignature_bytes 128 128 dsize
  ++ VbPublicKey_bytes 32 ksize 4 1
  ++ pad 8 17.

Definition key_block_bytes (dsize ksize : Z) : list byte :=
  let signed := firstn (Z.to_nat dsize) (key_block_prefix dsize ksize) in
  key_block_prefix dsize ksize
  ++ DigestBuf stub_crypto signed dsize 2
  ++ stub_sign root_rsa signed 0.

Definition BLOCK : Z := 4096.
Definition ROOT : Z := 8192.

(** The key block at [BLOCK] and the root key at [ROOT]. *)
Definition key_block_mem (dsize ksize root_ksize : Z) : mem :=
  write_bytes (mem_of_bytes BLOCK (key_block_bytes dsize ksize))
              ROOT (root_key_bytes root_ksize).

(** A firmware preamble in [spec_layout] whose signature covers the
    112-byte header only: the signature payload at 112, the payload of
    the kernel subkey at 240, that of the body signature at 248; 256
    bytes. *)
Definition firmware_preamble_header : list byte :=
  le64 2 ++ le64 1 ++ le64 256 ++ le64 7
  ++ VbPublicKey_bytes 208 8 4 1
  ++ VbSignature_bytes 184 8 4096
  ++ VbSignature_bytes 24 128 112.

Definition firmware_preamble_bytes : list byte :=
  firmware_preamble_header
  ++ stub_sign root_rsa firmware_preamble_header 0
  ++ pad 8 33 ++ pad 8 34.

Definition firmware_preamble_mem : mem :=
  mem_of_bytes BLOCK firmware_preamble_bytes.

(** A kernel preamble in [spec_layout] of 240 bytes: the 104-byte header,
    the signature payload at 104 and the payload of the body signature at
    232.  Its signature claims [dsize] signed bytes; the bytes after the
    preamble are [tail].  The signed range contains the signature payload,
    which the stand-in tolerates: the exclusive or of an even number of
    equal bytes is zero. *)
Definition kernel_preamble_header (dsize : Z) : list byte :=
  le64 2 ++ le64 1 ++ le64 240 ++ le64 7
  ++ le64 1048576 ++ le64 2097152 ++ le64 4096
  ++ VbSignature_bytes 176 8 4096
  ++ VbSignature_bytes 24 128 dsize.

Definition kernel_preamble_bytes (dsize : Z) (tail : list byte) : list byte :=
  kernel_preamble_header dsize
  ++ stub_sign root_rsa (kernel_preamble_header dsize ++ pad 8 35 ++ tail) 0
  ++ pad 8 35 ++ tail.

Definition kernel_preamble_mem (dsize : Z) (tail : list byte) : mem :=
  mem_of_bytes BLOCK (kernel_preamble_bytes dsize tail).

(** Two public keys for [PublicKeyCopy]: the source at [ROOT] with an
    8-byte payload; the destination at [BLOCK], whose [key_offset] is
    [dest_off] and which has room for [dest_size] bytes. *)
Definition copy_mem (dest_off dest_size : Z) : mem :=
  write_bytes
    (mem_of_bytes BLOCK (VbPublicKey_bytes dest_off dest_size 12 0 ++ pad 16 0))
    ROOT (VbPublicKey_bytes 32 8 4 3 ++ pad 8 7).

(** A lone [VbSignature] at [BLOCK] with its 128-byte payload right after
    the header; [dsize] is its [data_size]. *)
Definition signature_mem (dsize : Z) : mem :=
  mem_of_bytes BLOCK (VbSignature_bytes 24 128 dsize ++ pad 128 9).

(** The digest handed to [VerifyDigest] in the concrete runs: 20 bytes
    whose exclusive or is 9, the byte of the payload of [signature_mem]. *)
Definition sample_digest : list byte := pad 19 1 ++ pad 1 8.

(** ** Separation of the ranges [PublicKeyCopy] touches *)

(** The ranges [[a, a+n)] and [[b, b+k)] have no address in common. *)
Definition ranges_disjoint (a n b k : Z) : Prop :=
  n <= 0 \/ k <= 0 \/ a + n <= b \/ b + k <= a.

(** Addresses wrap at 2^64: [a] is one of the [len] addresses that start
    at [p]. *)
Definition in_range (p len a : Z) : Prop := to_uint64 (a - p) < len.

(** The [n] addresses that start at [a] and the [k] addresses that start
    at [b], both taken modulo 2^64, have no address in common: going up
    from [a], [b] is met after the first range has ended, and the second
    range ends before [a] is met again. *)
Definition ranges_apart (a n b k : Z) : Prop :=
  n <= 0 \/ k <= 0 \/ (n <= to_uint64 (b - a) /\ to_uint64 (b - a) + k <= 2 ^ 64).

(** The header of [dest] has no address in common with the header of
    [src] or with either payload, and the two payloads have none in
    common, as [memcpy] requires.  The payloads are where the accessors
    point, wherever that is relative to the headers. *)
Definition copy_separated (m : mem) (dest src : Z) : Prop :=
  let n := key_size m src in
  let dp := GetPublicKeyData m dest in
  let sp := GetPublicKeyDataC m src in
  ranges_apart dest sizeof_VbPublicKey src sizeof_VbPublicKey /\
  ranges_apart dest sizeof_VbPublicKey dp n /\
  ranges_apart dest sizeof_VbPublicKey sp n /\
  ranges_apart dp n sp n.

(** ** Further functions of vboot_common.c and of its test *)

Section KeyHelpers.

Variable L : StructLayout.
Variable C : CryptoLib.

(** [PublicKeyInit] (lines 88-93): the memory it leaves.  [size] is the C
    parameter [key_size]; [kNumAlgorithms], an [int], is converted to the
    [uint64_t] of the field. *)
Definition PublicKeyInit (m : mem) (key key_data size : Z) : mem :=
  let m := store m (field key offsetof_key_offset) 8 (OffsetOf key key_data) in
  let m := store m (field key offsetof_key_size) 8 size in
  let m := store m (field key offsetof_algorithm) 8 (to_uint64 (kNumAlgorithms C)) in
  store m (field key offsetof_key_version) 8 0.

(** [ReChecksumKeyBlock] (tests/vboot_common3_tests.c, lines 19-25).  The
    digest [newchk] is a buffer of its own, outside the memory of the key
    block; its first [SHA512_DIGEST_SIZE] bytes are copied onto the payload
    of the checksum. *)
Definition ReChecksumKeyBlock (m : mem) (h : Z) : mem :=
  let sig := field h (kb_key_block_checksum L) in
  let newchk := DigestBuf C (read_bytes m h (data_size m sig)) (data_size m sig)
                          (SHA512_DIGEST_ALGORITHM C) in
  write_bytes m (GetSignatureData m sig)
              (firstn (Z.to_nat SHA512_DIGEST_SIZE) newchk).

End KeyHelpers.

(** ** The signer's helpers (misclibs/signature_digest.c) *)

(** The tables of the cryptographic library the signer indexes by
    algorithm, taken as parameters. *)
Record PaddingTables := {
  hash_size_map : Z -> Z;
  digestinfo_size_map : Z -> Z;
  hash_digestinfo_map : Z -> list byte
}.

(** What the signer gets from its environment: the key file ([fopen]
    gives a handle or [NULL]), the PEM parser, the contents of a fresh
    allocation (allocation is assumed to succeed), and OpenSSL's
    [RSA_private_encrypt], which returns its status and the contents it
    leaves in the output buffer.  [DigestBuf] is here the function with
    its [NULL] result, which [SignatureDigest] tests. *)
Record SignerEnv := {
  RSAKey : Type;
  DigestBuf_or_null : list byte -> Z -> Z -> option (list byte);
  fopen : list byte -> option Z;
  PEM_read_RSAPrivateKey : Z -> option RSAKey;
  Malloc : Z -> list byte;
  RSA_PKCS1_PADDING : Z;
  RSA_private_encrypt :
    Z -> option (list byte) -> list byte -> RSAKey -> Z -> Z * list byte
}.

Section Signer.

Variable C : CryptoLib.
Variable T : PaddingTables.
Variable E : SignerEnv.

(** [PrependDigestInfo] (lines 19-27): the buffer of
    [digestinfo_size + digest_size] bytes the two [Memcpy] fill. *)
Definition PrependDigestInfo (algorithm : Z) (digest : list byte) : list byte :=
  let digest_size := hash_size_map T algorithm in
  let digestinfo_size := digestinfo_size_map T algorithm in
  let digestinfo := hash_digestinfo_map T algorithm in
  firstn (Z.to_nat digestinfo_size) digestinfo
  ++ firstn (Z.to_nat digest_size) digest.

(** [SignatureDigest] (lines 29-40): [None] is [NULL]. *)
Definition SignatureDigest (buf : list byte) (len algorithm : Z)
  : option (list byte) :=
  if algorithm >=? kNumAlgorithms C then None
  else
    match DigestBuf_or_null E buf len algorithm with
    | Some digest => Some (PrependDigestInfo algorithm digest)
    | None => None
    end.

(** [SignatureBuf] (lines 42-74): [None] is [NULL]. *)
Definition SignatureBuf (buf : list byte) (len : Z) (key_file : list byte)
                        (algorithm : Z) : option (list byte) :=
  let signature_digest := SignatureDigest buf len algorithm in
  let signature_digest_len :=
    hash_size_map T algorithm + digestinfo_size_map T algorithm in
  match fopen E key_file with
  | None => None
  | Some key_fp =>
      match PEM_read_RSAPrivateKey E key_fp with
      | Some key =>
          let signature := Malloc E (siglen_map C algorithm) in
          Some (snd (RSA_private_encrypt E signature_digest_len signature_digest
                       signature key (RSA_PKCS1_PADDING E)))
      | None => None
      end
  end.

End Signer.

(** The PKCS#1 v1.5 DigestInfo prefixes of SHA-1, SHA-256 and SHA-512,
    for the concrete runs. *)
Definition stub_tables : PaddingTables := {|
  hash_size_map := fun alg =>
    if alg mod 3 =? 0 then 20 else if alg mod 3 =? 1 then 32 else 64;
  digestinfo_size_map := fun alg => if alg mod 3 =? 0 then 15 else 19;
  hash_digestinfo_map := fun alg =>
    map byte.of_Z
      (if alg mod 3 =? 0
       then [48; 33; 48; 9; 6; 5; 43; 14; 3; 2; 26; 5; 0; 4; 20]
       else if alg mod 3 =? 1
       then [48; 49; 48; 13; 6; 9; 96; 134; 72; 1; 101; 3; 4; 2; 1; 5; 0; 4; 32]
       else [48; 81; 48; 13; 6; 9; 96; 134; 72; 1; 101; 3; 4; 2; 3; 5; 0; 4; 64])
|}.

(** A signer's environment in which the key file "k" exists and parses,
    and whose RSA operation fails, leaving the output buffer as it was. *)
Definition stub_env : SignerEnv := {|
  RSAKey := list byte;
  DigestBuf_or_null := fun buf len alg =>
    if (0 <=? alg) && (alg <? 12)
    then Some (repeat (byte.of_Z (xor_bytes buf))
                 (Z.to_nat (hash_size_map stub_tables alg)))
    else None;
  fopen := fun name => if bytes_eqb name [byte.of_Z 107] then Some 3 else None;
  PEM_read_RSAPrivateKey := fun fp => Some root_material;
  Malloc := fun n => repeat Byte.x00 (Z.to_nat n);
  RSA_PKCS1_PADDING := 1;
  RSA_private_encrypt := fun flen from to_ key padding => (-1, to_)
|}.

(** [copy_mem 32 16] with a third public key at [THIRD], whose payload
    has 12 bytes. *)
Definition THIRD : Z := 12288.
Definition copy_mem_three : mem :=
  write_bytes (copy_mem 32 16) THIRD (VbPublicKey_bytes 32 12 4 3 ++ pad 12 9).

(** A sub-object at offset [off] of the structure at [parent], with a
    header of [hdr] bytes and a payload of [size] bytes at [offset] from
    the header, is described without wrap-around: every address involved
    is below 2^64. *)
Definition sub_object_in_range (parent off hdr offset size : Z) : Prop :=
  0 <= off /\ parent + off < 2 ^ 64 /\
  off + hdr < 2 ^ 64 /\ off + offset + size < 2 ^ 64.

(** The key block of [key_block_mem 120 8 264] with the first byte of the
    payload of its data key altered, as the test "checksum mismatch"
    does. *)
Definition tampered_key_block_mem : mem :=
  write_bytes (key_block_mem 120 8 264) (BLOCK + 112) [byte.of_Z 99].

(** The RSA key of the concrete runs under algorithm 3, whose signatures
    have 256 bytes. *)
Definition root_rsa_2048 : RSAPublicKey :=
  {| rsa_material := root_material; rsa_algorithm := 3 |}.

(** [copy_mem 32 8] after [PublicKeyInit] has set up the key at [BLOCK]
    with room for 8 bytes 64 bytes before its header. *)
Definition copy_mem_before : mem :=
  PublicKeyInit stub_crypto (copy_mem 32 8) BLOCK (BLOCK - 64) 8.

(** The memory of [key_block_mem 120 8 264], whose root key at [ROOT] is
    a usable 264-byte key, with an empty public key at [THIRD] that has
    room for 300 bytes. *)
Definition copy_root_mem : mem :=
  write_bytes (key_block_mem 120 8 264) THIRD (VbPublicKey_bytes 32 300 12 0).

(** The firmware preamble of [firmware_preamble_mem] with [ksize] as the
    [key_size] of its kernel subkey; the signature is over the 112 bytes
    of the header. *)
Definition firmware_preamble_header_with (ksize : Z) : list byte :=
  le64 2 ++ le64 1 ++ le64 256 ++ le64 7
  ++ VbPublicKey_bytes 208 ksize 4 1
  ++ VbSignature_bytes 184 8 4096
  ++ VbSignature_bytes 24 128 112.

Definition firmware_preamble_mem_with (ksize : Z) : mem :=
  mem_of_bytes BLOCK
    (firmware_preamble_header_with ksize
     ++ stub_sign root_rsa (firmware_preamble_header_with ksize) 0
     ++ pad 8 33 ++ pad 8 34).

(** * Properties *)

(** ** Arithmetic of the machine integers *)

Ltac unfold_uint64 :=
  unfold to_uint64, is_uint64 in *;
  change (2 ^ 64) with 18446744073709551616 in *.

Ltac solve_uint64 := unfold_uint64; Z.div_mod_to_equations; lia.

Lemma to_uint64_range (x : Z) : is_uint64 (to_uint64 x).
Proof. solve_uint64. Qed.

Lemma to_uint64_small (x : Z) : is_uint64 x -> to_uint64 x = x.
Proof. intros H; unfold_uint64; apply Z.mod_small; exact H. Qed.

Lemma OffsetOf_field (p off : Z) :
  is_uint64 p -> is_uint64 off -> OffsetOf p (field p off) = off.
Proof. unfold OffsetOf, field; intros; solve_uint64. Qed.

Lemma OffsetOf_above (base ptr : Z) :
  is_uint64 base -> is_uint64 ptr -> base <= ptr -> OffsetOf base ptr = ptr - base.
Proof. unfold OffsetOf; intros; solve_uint64. Qed.

Lemma to_int_small (x : Z) : - 2 ^ 31 <= x < 2 ^ 31 -> to_int x = x.
Proof.
  intros H. unfold to_int.
  change (2 ^ 31) with 2147483648 in *. change (2 ^ 32) with 4294967296.
  rewrite Z.mod_small by lia. lia.
Qed.

Lemma field_small (p off : Z) :
  0 <= p -> 0 <= off -> p + off < 2 ^ 64 -> field p off = p + off.
Proof. intros. unfold field. apply to_uint64_small. unfold_uint64. lia. Qed.

(** ** Memory: reads after writes *)

Lemma length_read_bytes (m : mem) (p n : Z) :
  length (read_bytes m p n) = Z.to_nat n.
Proof. unfold read_bytes. rewrite length_map, length_seq. reflexivity. Qed.

Lemma read_bytes_ext (m1 m2 : mem) (p n : Z) :
  (forall i, 0 <= i < n -> m1 (to_uint64 (p + i)) = m2 (to_uint64 (p + i))) ->
  read_bytes m1 p n = read_bytes m2 p n.
Proof.
  intros H. unfold read_bytes. apply map_ext_in.
  intros i Hi. apply in_seq in Hi. apply H. lia.
Qed.

Lemma load_range (m : mem) (p : Z) : is_uint64 (load m p 8).
Proof.
  unfold load, is_uint64.
  pose proof (le_combine_bound (read_bytes m p 8)) as H.
  rewrite length_read_bytes in H. exact H.
Qed.

Lemma write_bytes_outside (m : mem) (p : Z) (bs : list byte) (a : Z) :
  0 <= p -> p + Z.of_nat (length bs) <= 2 ^ 64 ->
  is_uint64 a ->
  a < p \/ p + Z.of_nat (length bs) <= a ->
  write_bytes m p bs a = m a.
Proof.
  intros Hp Hlen Ha Hout. unfold write_bytes. cbn zeta.
  destruct (Z.ltb_spec (to_uint64 (a - p)) (Z.of_nat (length bs))) as [Hlt|]; [|reflexivity].
  exfalso. revert Hlt. solve_uint64.
Qed.

Lemma write_bytes_inside (m : mem) (p : Z) (bs : list byte) (i : Z) :
  0 <= i < Z.of_nat (length bs) -> Z.of_nat (length bs) <= 2 ^ 64 ->
  write_bytes m p bs (to_uint64 (p + i)) = nth (Z.to_nat i) bs Byte.x00.
Proof.
  intros Hi Hlen. unfold write_bytes. cbn zeta.
  assert (E : to_uint64 (to_uint64 (p + i) - p) = i) by (revert Hi Hlen; solve_uint64).
  rewrite E. destruct (Z.ltb_spec i (Z.of_nat (length bs))); [reflexivity|lia].
Qed.

Lemma map_seq_nth {A : Type} (f : nat -> A) (l : list A) (d : A) :
  (forall i, (i < length l)%nat -> f i = nth i l d) ->
  map f (seq 0 (length l)) = l.
Proof.
  intros H. apply nth_ext with (d := f 0%nat) (d' := d).
  - rewrite length_map, length_seq. reflexivity.
  - intros k Hk. rewrite length_map, length_seq in Hk.
    rewrite map_nth, seq_nth by exact Hk. apply H. exact Hk.
Qed.

Lemma read_write_same (m : mem) (p : Z) (bs : list byte) :
  Z.of_nat (length bs) <= 2 ^ 64 ->
  read_bytes (write_bytes m p bs) p (Z.of_nat (length bs)) = bs.
Proof.
  intros Hlen. unfold read_bytes. rewrite Nat2Z.id.
  apply map_seq_nth with (d := Byte.x00). intros i Hi.
  rewrite write_bytes_inside by lia. rewrite Nat2Z.id. reflexivity.
Qed.

Lemma read_write_other (m : mem) (p : Z) (bs : list byte) (q n : Z) :
  0 <= p -> p + Z.of_nat (length bs) <= 2 ^ 64 ->
  0 <= q -> q + n <= 2 ^ 64 ->
  ranges_disjoint p (Z.of_nat (length bs)) q n ->
  read_bytes (write_bytes m p bs) q n = read_bytes m q n.
Proof.
  intros Hp Hlen Hq Hn Hd. apply read_bytes_ext. intros i Hi.
  assert (Ea : to_uint64 (q + i) = q + i) by (apply to_uint64_small; unfold_uint64; lia).
  rewrite Ea. apply write_bytes_outside; try assumption.
  - unfold_uint64; lia.
  - unfold ranges_disjoint in Hd.
    destruct Hd as [Hd|[Hd|[Hd|Hd]]]; lia.
Qed.

Lemma load_store_same (m : mem) (p v : Z) :
  is_uint64 v -> load (store m p 8 v) p 8 = v.
Proof.
  intros Hv. unfold load, store.
  pose proof (read_write_same m p (le_split 8 v)) as H.
  rewrite length_le_split in H. change (Z.of_nat 8) with 8 in H.
  rewrite H by (change (2 ^ 64) with 18446744073709551616; lia).
  rewrite le_combine_split. change (Z.of_nat 8 * 8) with 64.
  apply Z.mod_small. exact Hv.
Qed.

Lemma read_store_other (m : mem) (p v q n : Z) :
  0 <= p -> p + 8 <= 2 ^ 64 -> 0 <= q -> q + n <= 2 ^ 64 ->
  ranges_disjoint p 8 q n ->
  read_bytes (store m p 8 v) q n = read_bytes m q n.
Proof.
  intros. unfold store. apply read_write_other; try assumption;
    rewrite length_le_split; assumption.
Qed.

Lemma load_store_other (m : mem) (p v q : Z) :
  0 <= p -> p + 8 <= 2 ^ 64 -> 0 <= q -> q + 8 <= 2 ^ 64 ->
  ranges_disjoint p 8 q 8 ->
  load (store m p 8 v) q 8 = load m q 8.
Proof. intros. unfold load. rewrite read_store_other by assumption. reflexivity. Qed.

Lemma store_outside (m : mem) (p v a : Z) :
  0 <= p -> p + 8 <= 2 ^ 64 -> is_uint64 a -> a < p \/ p + 8 <= a ->
  store m p 8 v a = m a.
Proof.
  intros. unfold store. apply write_bytes_outside; try assumption;
    rewrite length_le_split; assumption.
Qed.

(** *** Memories that agree on a range *)

Lemma nth_map_seq {A : Type} (f : nat -> A) (n i : nat) (d : A) :
  (i < n)%nat -> nth i (map f (seq 0 n)) d = f i.
Proof.
  intros Hi. rewrite (nth_indep _ d (f 0%nat)) by (rewrite length_map, length_seq; lia).
  rewrite map_nth, seq_nth by lia. reflexivity.
Qed.

Lemma read_bytes_pointwise (m1 m2 : mem) (p n i : Z) :
  read_bytes m1 p n = read_bytes m2 p n -> 0 <= i < n ->
  m1 (to_uint64 (p + i)) = m2 (to_uint64 (p + i)).
Proof.
  intros H Hi. unfold read_bytes in H.
  apply (f_equal (fun l => nth (Z.to_nat i) l Byte.x00)) in H.
  rewrite !nth_map_seq in H by lia.
  rewrite Z2Nat.id in H by lia. exact H.
Qed.

Lemma load_within (m1 m2 : mem) (p n q : Z) :
  read_bytes m1 p n = read_bytes m2 p n ->
  is_uint64 p -> p <= q -> q + 8 <= p + n -> p + n <= 2 ^ 64 ->
  load m1 q 8 = load m2 q 8.
Proof.
  intros H Hp H1 H2 H3. unfold load. f_equal. apply read_bytes_ext. intros i Hi.
  replace (q + i) with (p + (q - p + i)) by lia.
  apply (read_bytes_pointwise m1 m2 p n); [exact H|lia].
Qed.

(** ** The member-inside predicate *)

(** Where the four conditions of the specification hold, the code answers
    "inside". *)
Lemma VerifyMemberInside_complete (parent psize member msize off dsize : Z) :
  is_uint64 parent -> is_uint64 psize -> is_uint64 member ->
  0 <= msize -> 0 <= off -> 0 <= dsize ->
  member_inside_spec parent psize member msize off dsize ->
  VerifyMemberInside parent psize member msize off dsize = 0.
Proof.
  intros Hp Hs Hm Hms Ho Hd ((Hge & H1) & H2 & H3 & H4).
  unfold VerifyMemberInside.
  rewrite OffsetOf_above by (assumption || lia).
  assert (E1 : to_uint64 (member - parent + msize) = member - parent + msize)
    by (apply to_uint64_small; unfold_uint64; lia).
  assert (E2 : to_uint64 (member - parent + off) = member - parent + off)
    by (apply to_uint64_small; unfold_uint64; lia).
  assert (E3 : to_uint64 (member - parent + off + dsize) = member - parent + off + dsize)
    by (apply to_uint64_small; unfold_uint64; lia).
  rewrite E1, E2, E3.
  repeat match goal with
         | |- context [?a >? ?b] => destruct (Z.gtb_spec a b); try lia
         end.
Qed.

(** Where no sum leaves the 64-bit range and the member does not precede
    its parent, an answer "inside" gives the four conditions. *)
Lemma VerifyMemberInside_sound_nowrap (parent psize member msize off dsize : Z) :
  is_uint64 parent -> is_uint64 member -> parent <= member ->
  0 <= msize -> 0 <= off -> 0 <= dsize ->
  member - parent + msize < 2 ^ 64 ->
  member - parent + off + dsize < 2 ^ 64 ->
  VerifyMemberInside parent psize member msize off dsize = 0 ->
  member_inside_spec parent psize member msize off dsize.
Proof.
  intros Hp Hm Hle Hms Ho Hd N1 N2.
  unfold VerifyMemberInside.
  rewrite OffsetOf_above by assumption.
  assert (E1 : to_uint64 (member - parent + msize) = member - parent + msize)
    by (apply to_uint64_small; unfold_uint64; lia).
  assert (E2 : to_uint64 (member - parent + off) = member - parent + off)
    by (apply to_uint64_small; unfold_uint64; lia).
  assert (E3 : to_uint64 (member - parent + off + dsize) = member - parent + off + dsize)
    by (apply to_uint64_small; unfold_uint64; lia).
  rewrite E1, E2, E3.
  repeat match goal with
         | |- context [?a >? ?b] => destruct (Z.gtb_spec a b); try discriminate
         end.
  intros _; unfold member_inside_spec; lia.
Qed.

(** C1.  The code does not return "inside" exactly when the four conditions
    of the specification hold: a member at offset 10 of a 100-byte parent
    whose payload size is 2^64 - 1 is reported inside (0), because
    [end + member_data_size] wraps around to 9; the fourth condition
    fails, and the overflow is not detected. *)
Theorem VerifyMemberInside_wraparound_accepted :
  VerifyMemberInside 4096 100 4106 32 0 (2 ^ 64 - 1) = 0 /\
  ~ member_inside_spec 4096 100 4106 32 0 (2 ^ 64 - 1).
Proof.
  split.
  - vm_compute; reflexivity.
  - unfold member_inside_spec; intros (_ & _ & _ & H).
    change (2 ^ 64) with 18446744073709551616 in H; lia.
Qed.

(** ** Acceptance conditions of the verifiers *)

Ltac break_if :=
  match goal with
  | |- context [if ?c then _ else _] => destruct c eqn:?
  | H : context [if ?c then _ else _] |- _ => destruct c eqn:?
  end.

Ltac bool_facts :=
  repeat match goal with
         | H : negb _ = true |- _ => apply negb_true_iff in H
         | H : negb _ = false |- _ => apply negb_false_iff in H
         | H : (_ =? _) = true |- _ => apply Z.eqb_eq in H
         | H : (_ =? _) = false |- _ => apply Z.eqb_neq in H
         | H : (_ <? _) = true |- _ => apply Z.ltb_lt in H
         | H : (_ <? _) = false |- _ => apply Z.ltb_ge in H
         | H : (_ <=? _) = true |- _ => apply Z.leb_le in H
         | H : (_ <=? _) = false |- _ => apply Z.leb_gt in H
         | H : (_ >? _) = true |- _ => rewrite Z.gtb_ltb in H
         | H : (_ >? _) = false |- _ => rewrite Z.gtb_ltb in H
         end.

Section VerifierFacts.

Variable L : StructLayout.
Variable C : CryptoLib.

Lemma VerifyData_ok_iff (m : mem) (data size sig : Z) (key : RSAPublicKey) :
  result (VerifyData C m data size sig key) = 0 <->
  sig_size m sig = to_uint64 (siglen_map C (rsa_algorithm key)) /\
  data_size m sig <= size /\
  rsa_verdict C m data sig key <> 0.
Proof.
  unfold VerifyData, rsa_verdict, bind, call, ret, result.
  repeat break_if; simpl; bool_facts; split;
    try discriminate; try tauto; try lia; intuition (try lia; try congruence).
Qed.

Lemma VerifyData_trace (m : mem) (data size sig : Z) (key : RSAPublicKey) :
  trace (VerifyData C m data size sig key) <> [] ->
  trace (VerifyData C m data size sig key) =
    [EvRSAVerifyBinary data (data_size m sig) (GetSignatureDataC m sig)
                       (rsa_algorithm key)] /\
  sig_size m sig = to_uint64 (siglen_map C (rsa_algorithm key)) /\
  data_size m sig <= size.
Proof.
  unfold VerifyData, bind, call, ret, trace.
  repeat break_if; simpl; bool_facts; intros H;
    try (exfalso; apply H; reflexivity); repeat split; try assumption; lia.
Qed.

(** Past its two checks [VerifyData] does not depend on the buffer
    length. *)
Lemma VerifyData_size_mono (m : mem) (data n n' sig : Z) (key : RSAPublicKey) :
  n <= n' ->
  result (VerifyData C m data n sig key) = 0 ->
  VerifyData C m data n' sig key = VerifyData C m data n sig key.
Proof.
  intros Hle H. apply VerifyData_ok_iff in H. destruct H as (H1 & H2 & H3).
  unfold VerifyData.
  rewrite H1, Z.eqb_refl. simpl.
  destruct (Z.gtb_spec (data_size m sig) n); [lia|].
  destruct (Z.gtb_spec (data_size m sig) n'); [lia|].
  reflexivity.
Qed.

Lemma KeyBlockVerify_signed_ok_iff (m : mem) (block sig : Z) :
  KeyBlockVerify_signed L m block sig = VBOOT_SUCCESS <->
  sizeof_VbKeyBlockHeader L <= data_size m sig /\
  VerifyPublicKeyInside m block (key_block_size L m block)
    (field block (kb_data_key L)) = 0 /\
  VerifyPublicKeyInside m block (data_size m sig)
    (field block (kb_data_key L)) = 0.
Proof.
  unfold KeyBlockVerify_signed.
  repeat break_if; bool_facts; split; try discriminate; intuition (try lia; try congruence).
Qed.

Lemma KeyBlockVerify_keyed_ok_iff (m : mem) (block size key : Z) :
  key <> 0 ->
  result (KeyBlockVerify L C m block size key) = VBOOT_SUCCESS <->
  let sig := field block (kb_key_block_signature L) in
  key_block_header_ok L m block size /\
  VerifySignatureInside m block (key_block_size L m block) sig = 0 /\
  exists rsa, PublicKeyToRSA C m key = Some rsa /\
    data_size m sig <= key_block_size L m block /\
    result (VerifyData C m block size sig rsa) = 0 /\
    KeyBlockVerify_signed L m block sig = VBOOT_SUCCESS.
Proof.
  intros Hk. unfold key_block_header_ok, KeyBlockVerify.
  apply Z.eqb_neq in Hk. rewrite Hk. cbn [negb].
  unfold bind, ret, result.
  destruct (PublicKeyToRSA C m key) as [rsa|].
  - destruct (VerifyData C m block size (field block (kb_key_block_signature L)) rsa)
      as [rv t] eqn:E.
    split.
    + intros H. repeat break_if; cbn [fst] in H; try discriminate; bool_facts.
      repeat split; try assumption; try lia.
      exists rsa. rewrite E. cbn [fst]. repeat split; try assumption; lia.
    + intros ((Hm & Hv & Hs) & Hin & r & Hr & Hd & Hvd & Hsg).
      inversion Hr; subst r. rewrite E in Hvd. cbn [fst] in Hvd.
      repeat break_if; cbn [fst]; bool_facts; try assumption; try lia; congruence.
  - split.
    + intros H. repeat break_if; cbn [fst] in H; discriminate.
    + intros (_ & _ & r & Hr & _); discriminate.
Qed.

Lemma KeyBlockVerify_hash_ok_iff (m : mem) (block size : Z) :
  result (KeyBlockVerify L C m block size 0) = VBOOT_SUCCESS <->
  let sig := field block (kb_key_block_checksum L) in
  key_block_header_ok L m block size /\
  VerifySignatureInside m block (key_block_size L m block) sig = 0 /\
  sig_size m sig = SHA512_DIGEST_SIZE /\
  checksum_matches L C m block /\
  KeyBlockVerify_signed L m block sig = VBOOT_SUCCESS.
Proof.
  unfold key_block_header_ok, checksum_matches, KeyBlockVerify.
  cbn [Z.eqb negb]. unfold bind, call, ret, result.
  repeat break_if; cbn [fst]; bool_facts; split; try discriminate;
    intuition (try lia; try congruence).
Qed.

Lemma VerifyFirmwarePreamble_ok_iff (m : mem) (preamble size : Z) (key : RSAPublicKey) :
  result (VerifyFirmwarePreamble L C m preamble size key) = VBOOT_SUCCESS <->
  let sig := field preamble (fp_preamble_signature L) in
  fp_major L m preamble = FIRMWARE_PREAMBLE_HEADER_VERSION_MAJOR L /\
  fp_size L m preamble <= size /\
  VerifySignatureInside m preamble (fp_size L m preamble) sig = 0 /\
  data_size m sig <= fp_size L m preamble /\
  result (VerifyData C m preamble size sig key) = 0 /\
  sizeof_VbFirmwarePreambleHeader L <= data_size m sig /\
  VerifySignatureInside m preamble (fp_size L m preamble)
    (field preamble (fp_body_signature L)) = 0 /\
  VerifyPublicKeyInside m preamble (fp_size L m preamble)
    (field preamble (fp_kernel_subkey L)) = 0.
Proof.
  unfold VerifyFirmwarePreamble, bind, ret, result.
  destruct (VerifyData C m preamble size (field preamble (fp_preamble_signature L)) key)
    as [rv t] eqn:E.
  cbn zeta. split.
  - intros H. repeat break_if; cbn [fst] in H; try discriminate; bool_facts.
    cbn [fst]. repeat split; try assumption; lia.
  - cbn [fst]. intros (H1 & H2 & H3 & H4 & H5 & H6 & H7 & H8).
    repeat break_if; cbn [fst]; bool_facts; try reflexivity; try lia; congruence.
Qed.

Lemma VerifyKernelPreamble_ok_iff (m : mem) (preamble size : Z) (key : RSAPublicKey) :
  result (VerifyKernelPreamble L C m preamble size key) = VBOOT_SUCCESS <->
  let sig := field preamble (kp_preamble_signature L) in
  kp_major L m preamble = KERNEL_PREAMBLE_HEADER_VERSION_MAJOR L /\
  kp_size L m preamble <= size /\
  VerifySignatureInside m preamble (kp_size L m preamble) sig = 0 /\
  result (VerifyData C m preamble size sig key) = 0 /\
  sizeof_VbKernelPreambleHeader L <= data_size m sig /\
  VerifySignatureInside m preamble (kp_size L m preamble)
    (field preamble (kp_body_signature L)) = 0.
Proof.
  unfold VerifyKernelPreamble, bind, ret, result.
  destruct (VerifyData C m preamble size (field preamble (kp_preamble_signature L)) key)
    as [rv t] eqn:E.
  cbn zeta. split.
  - intros H. repeat break_if; cbn [fst] in H; try discriminate; bool_facts.
    cbn [fst]. repeat split; try assumption; lia.
  - cbn [fst]. intros (H1 & H2 & H3 & H4 & H5 & H6).
    repeat break_if; cbn [fst]; bool_facts; try reflexivity; try lia; congruence.
Qed.

(** ** Truncation monotonicity *)

Lemma KeyBlockVerify_size_mono (m : mem) (block n n' key : Z) :
  n <= n' ->
  result (KeyBlockVerify L C m block n key) = VBOOT_SUCCESS ->
  result (KeyBlockVerify L C m block n' key) = VBOOT_SUCCESS.
Proof.
  intros Hle. destruct (Z.eq_dec key 0) as [->|Hk].
  - rewrite !KeyBlockVerify_hash_ok_iff. unfold key_block_header_ok.
    cbn zeta. intuition lia.
  - rewrite !KeyBlockVerify_keyed_ok_iff by assumption. unfold key_block_header_ok.
    cbn zeta. intros ((H1 & H2 & H3) & H4 & rsa & H5 & H6 & H7 & H8).
    repeat split; try assumption; try lia.
    exists rsa. repeat split; try assumption.
    rewrite (VerifyData_size_mono _ _ n n') by assumption. exact H7.
Qed.

Lemma VerifyFirmwarePreamble_size_mono (m : mem) (preamble n n' : Z) (key : RSAPublicKey) :
  n <= n' ->
  result (VerifyFirmwarePreamble L C m preamble n key) = VBOOT_SUCCESS ->
  result (VerifyFirmwarePreamble L C m preamble n' key) = VBOOT_SUCCESS.
Proof.
  intros Hle. rewrite !VerifyFirmwarePreamble_ok_iff. cbn zeta.
  intros (H1 & H2 & H3 & H4 & H5 & H6 & H7 & H8).
  repeat split; try assumption; try lia.
  rewrite (VerifyData_size_mono _ _ n n') by assumption. exact H5.
Qed.

Lemma VerifyKernelPreamble_size_mono (m : mem) (preamble n n' : Z) (key : RSAPublicKey) :
  n <= n' ->
  result (VerifyKernelPreamble L C m preamble n key) = VBOOT_SUCCESS ->
  result (VerifyKernelPreamble L C m preamble n' key) = VBOOT_SUCCESS.
Proof.
  intros Hle. rewrite !VerifyKernelPreamble_ok_iff. cbn zeta.
  intros (H1 & H2 & H3 & H4 & H5 & H6).
  repeat split; try assumption; try lia.
  rewrite (VerifyData_size_mono _ _ n n') by assumption. exact H4.
Qed.

(** C7.  Truncation monotonicity: with the bytes of memory fixed, a
    verifier that accepts under the declared length [n] accepts under every
    declared length [n' >= n], for the same key argument. *)
Theorem truncation_monotonicity (m : mem) (b n n' : Z) :
  n <= n' ->
  (forall key : Z,
      result (KeyBlockVerify L C m b n key) = VBOOT_SUCCESS ->
      result (KeyBlockVerify L C m b n' key) = VBOOT_SUCCESS) /\
  (forall key : RSAPublicKey,
      result (VerifyFirmwarePreamble L C m b n key) = VBOOT_SUCCESS ->
      result (VerifyFirmwarePreamble L C m b n' key) = VBOOT_SUCCESS) /\
  (forall key : RSAPublicKey,
      result (VerifyKernelPreamble L C m b n key) = VBOOT_SUCCESS ->
      result (VerifyKernelPreamble L C m b n' key) = VBOOT_SUCCESS).
Proof.
  intros Hle. repeat split; intros key.
  - apply KeyBlockVerify_size_mono; exact Hle.
  - apply VerifyFirmwarePreamble_size_mono; exact Hle.
  - apply VerifyKernelPreamble_size_mono; exact Hle.
Qed.

(** ** Key block, hash mode *)

(** C5.  Hash mode ([key] is [NULL]), past the magic, version, size and
    checksum-inside checks: a checksum whose [sig_size] is not
    [SHA512_DIGEST_SIZE] is rejected as invalid before any hashing;
    otherwise the one primitive called is [DigestBuf], over the
    [key_block_checksum.data_size] bytes that start at the block, and a
    digest that differs from the checksum payload gives
    [VBOOT_KEY_BLOCK_HASH]. *)
Theorem KeyBlockVerify_hash_mode (m : mem) (block size : Z) :
  let sig := field block (kb_key_block_checksum L) in
  key_block_header_ok L m block size ->
  VerifySignatureInside m block (key_block_size L m block) sig = 0 ->
  (sig_size m sig <> SHA512_DIGEST_SIZE ->
   KeyBlockVerify L C m block size 0 = (VBOOT_KEY_BLOCK_INVALID, [])) /\
  (sig_size m sig = SHA512_DIGEST_SIZE ->
   trace (KeyBlockVerify L C m block size 0) =
     [EvDigestBuf block (data_size m sig) (SHA512_DIGEST_ALGORITHM C)] /\
   (~ checksum_matches L C m block ->
    result (KeyBlockVerify L C m block size 0) = VBOOT_KEY_BLOCK_HASH)).
Proof.
  intros sig (Hm & Hv & Hs) Hin. subst sig.
  unfold checksum_matches, KeyBlockVerify.
  rewrite Hm, Hv, Hin, !Z.eqb_refl. cbn [Z.eqb negb].
  destruct (Z.ltb_spec size (key_block_size L m block)); [lia|].
  unfold bind, call, ret, result, trace.
  split; intros Hsz.
  - apply Z.eqb_neq in Hsz. rewrite Hsz. reflexivity.
  - rewrite Hsz, Z.eqb_refl. cbn [negb].
    split.
    + break_if; reflexivity.
    + intros Hneq. apply Z.eqb_neq in Hneq. rewrite Hneq. reflexivity.
Qed.

(** ** Key block, keyed mode: the root key *)

Lemma PublicKeyToRSA_bad_algorithm (m : mem) (key : Z) :
  to_uint64 (kNumAlgorithms C) <= algorithm m key ->
  PublicKeyToRSA C m key = None.
Proof.
  intros H. unfold PublicKeyToRSA.
  destruct (Z.leb_spec (to_uint64 (kNumAlgorithms C)) (algorithm m key)); [reflexivity|lia].
Qed.

(** The size check of [PublicKeyToRSA] compares the two sizes as [int]. *)
Lemma PublicKeyToRSA_bad_key_size (m : mem) (key : Z) :
  RSAProcessedKeySize C (to_int (algorithm m key)) <> to_int (key_size m key) ->
  PublicKeyToRSA C m key = None.
Proof.
  intros H. unfold PublicKeyToRSA. apply Z.eqb_neq in H. rewrite H.
  break_if; reflexivity.
Qed.

Lemma KeyBlockVerify_unusable_root_key (m : mem) (block size key : Z) :
  key <> 0 ->
  key_block_header_ok L m block size ->
  VerifySignatureInside m block (key_block_size L m block)
    (field block (kb_key_block_signature L)) = 0 ->
  PublicKeyToRSA C m key = None ->
  KeyBlockVerify L C m block size key = (VBOOT_PUBLIC_KEY_INVALID, []).
Proof.
  intros Hk (Hm & Hv & Hs) Hin Hrsa. unfold KeyBlockVerify.
  apply Z.eqb_neq in Hk.
  rewrite Hm, Hv, Hin, Hk, !Z.eqb_refl. cbn [Z.eqb negb]. rewrite Hrsa.
  destruct (Z.ltb_spec size (key_block_size L m block)); [lia|reflexivity].
Qed.

(** A root key whose algorithm is out of the table, or whose size, as an
    [int], is not the processed length of its algorithm, is refused. *)
Lemma KeyBlockVerify_root_key_refused (m : mem) (block size key : Z) :
  key <> 0 ->
  key_block_header_ok L m block size ->
  VerifySignatureInside m block (key_block_size L m block)
    (field block (kb_key_block_signature L)) = 0 ->
  to_uint64 (kNumAlgorithms C) <= algorithm m key \/
  RSAProcessedKeySize C (to_int (algorithm m key)) <> to_int (key_size m key) ->
  KeyBlockVerify L C m block size key = (VBOOT_PUBLIC_KEY_INVALID, []).
Proof.
  intros Hk Hh Hin Hbad.
  apply KeyBlockVerify_unusable_root_key; try assumption.
  destruct Hbad as [Ha|Hs].
  - apply PublicKeyToRSA_bad_algorithm; exact Ha.
  - apply PublicKeyToRSA_bad_key_size; exact Hs.
Qed.

(** ** Signed-prefix coverage *)

(** What acceptance of a key block establishes about the data key: the
    two calls of [VerifyPublicKeyInside] answered "inside". *)
Lemma KeyBlockVerify_ok_signed (m : mem) (block size key : Z) :
  result (KeyBlockVerify L C m block size key) = VBOOT_SUCCESS ->
  let sig := if key =? 0 then field block (kb_key_block_checksum L)
             else field block (kb_key_block_signature L) in
  sizeof_VbKeyBlockHeader L <= data_size m sig /\
  VerifyPublicKeyInside m block (key_block_size L m block)
    (field block (kb_data_key L)) = 0 /\
  VerifyPublicKeyInside m block (data_size m sig)
    (field block (kb_data_key L)) = 0.
Proof.
  destruct (Z.eq_dec key 0) as [->|Hk].
  - rewrite KeyBlockVerify_hash_ok_iff. cbn zeta. cbn [Z.eqb].
    intros (_ & _ & _ & _ & H). apply KeyBlockVerify_signed_ok_iff in H. exact H.
  - rewrite KeyBlockVerify_keyed_ok_iff by assumption. cbn zeta.
    apply Z.eqb_neq in Hk. rewrite Hk.
    intros (_ & _ & rsa & _ & _ & _ & H).
    apply KeyBlockVerify_signed_ok_iff in H. exact H.
Qed.

(** Without wrap-around, the accepted data key does lie inside the block
    and inside the signed prefix. *)
Lemma KeyBlockVerify_ok_data_key_contained (m : mem) (block size key : Z) :
  let data_key := field block (kb_data_key L) in
  let sig := if key =? 0 then field block (kb_key_block_checksum L)
             else field block (kb_key_block_signature L) in
  result (KeyBlockVerify L C m block size key) = VBOOT_SUCCESS ->
  is_uint64 block -> 0 <= kb_data_key L -> block + kb_data_key L < 2 ^ 64 ->
  kb_data_key L + sizeof_VbPublicKey < 2 ^ 64 ->
  kb_data_key L + key_offset m data_key + key_size m data_key < 2 ^ 64 ->
  member_inside_spec block (key_block_size L m block) data_key
    sizeof_VbPublicKey (key_offset m data_key) (key_size m data_key) /\
  member_inside_spec block (data_size m sig) data_key
    sizeof_VbPublicKey (key_offset m data_key) (key_size m data_key).
Proof.
  intros data_key sig Hok Hb Hoff Hfit Hhdr Hnowrap.
  apply KeyBlockVerify_ok_signed in Hok. cbn zeta in Hok.
  destruct Hok as (_ & H1 & H2).
  assert (Ef : data_key = block + kb_data_key L)
    by (apply field_small; unfold is_uint64 in Hb; lia).
  pose proof (load_range m (field data_key offsetof_key_offset)) as Ro.
  pose proof (load_range m (field data_key offsetof_key_size)) as Rs.
  fold (key_offset m data_key) in Ro. fold (key_size m data_key) in Rs.
  unfold VerifyPublicKeyInside in H1, H2. fold data_key in H1, H2. fold sig in H2.
  unfold is_uint64 in *.
  split; apply VerifyMemberInside_sound_nowrap;
    try assumption; unfold is_uint64, sizeof_VbPublicKey in *; try lia.
Qed.

(** ** [VerifyDigest] and the [data_size] field *)

(** C9.  [VerifyDigest] does not read [data_size]: two signatures, in two
    memories, that agree on [sig_size], on [sig_offset] and on the bytes
    of the payload get the same answer for every digest and key, whatever
    their [data_size] fields hold; [VerifyData] in contrast rejects a
    [data_size] beyond the length of the buffer. *)
Theorem VerifyDigest_ignores_data_size
        (m1 m2 : mem) (sig1 sig2 : Z) (digest : list byte) (key : RSAPublicKey) :
  sig_size m1 sig1 = sig_size m2 sig2 ->
  sig_offset m1 sig1 = sig_offset m2 sig2 ->
  read_bytes m1 (GetSignatureDataC m1 sig1) (sig_size m1 sig1) =
  read_bytes m2 (GetSignatureDataC m2 sig2) (sig_size m2 sig2) ->
  result (VerifyDigest C m1 digest sig1 key) =
  result (VerifyDigest C m2 digest sig2 key) /\
  (forall data size : Z,
      size < data_size m1 sig1 ->
      VerifyData C m1 data size sig1 key = (1, [])).
Proof.
  intros Hsize Hoff Hpay. split.
  - unfold VerifyDigest, bind, call, ret, result. rewrite Hpay, Hsize.
    repeat break_if; reflexivity.
  - intros data size Hlt. unfold VerifyData.
    break_if; [reflexivity|].
    destruct (Z.gtb_spec (data_size m1 sig1) size); [reflexivity|lia].
Qed.

(** ** Order of the checks and of the cryptographic work *)

Lemma KeyBlockVerify_signed_invalid (m : mem) (block key : Z) :
  KeyBlockVerify_signed L m block
    (if key =? 0 then field block (kb_key_block_checksum L)
     else field block (kb_key_block_signature L)) = VBOOT_KEY_BLOCK_INVALID ->
  key_block_trailing_check_fails L m block key.
Proof.
  unfold KeyBlockVerify_signed, key_block_trailing_check_fails. cbn zeta.
  repeat break_if; try discriminate; bool_facts; intros _; auto.
Qed.

Lemma KeyBlockVerify_order (m : mem) (block size key : Z) :
  trace (KeyBlockVerify L C m block size key) <> [] ->
  key_block_leading_checks L C m block size key /\
  (result (KeyBlockVerify L C m block size key) = VBOOT_KEY_BLOCK_INVALID ->
   key_block_trailing_check_fails L m block key).
Proof.
  unfold key_block_leading_checks, key_block_header_ok.
  intros Ht. pose proof (KeyBlockVerify_signed_invalid m block key) as Hinv.
  revert Ht Hinv. unfold KeyBlockVerify.
  destruct (key =? 0) eqn:Hk; cbn [negb]; unfold bind, call, ret, result, trace.
  - repeat break_if; cbn [fst snd app]; bool_facts; intros Ht Hinv;
      try (exfalso; apply Ht; reflexivity);
      (split; [repeat split; try assumption; lia | try discriminate; exact Hinv]).
  - destruct (PublicKeyToRSA C m key) as [rsa|].
    + pose proof (VerifyData_trace m block size (field block (kb_key_block_signature L)) rsa)
        as Hvd.
      destruct (VerifyData C m block size (field block (kb_key_block_signature L)) rsa)
        as [rv t] eqn:E.
      unfold trace in Hvd. cbn [snd] in Hvd.
      repeat break_if; cbn [fst snd app]; bool_facts; intros Ht Hinv;
        try (exfalso; apply Ht; reflexivity);
        rewrite app_nil_r in Ht; destruct (Hvd Ht) as (_ & Hs1 & Hs2);
        (split; [repeat split; try assumption; try lia;
                 exists rsa; repeat split; try assumption; lia
                | try discriminate; exact Hinv]).
    + repeat break_if; cbn [fst snd app]; intros Ht Hinv;
        exfalso; apply Ht; reflexivity.
Qed.

Lemma VerifyFirmwarePreamble_order (m : mem) (preamble size : Z) (key : RSAPublicKey) :
  trace (VerifyFirmwarePreamble L C m preamble size key) <> [] ->
  firmware_preamble_leading_checks L C m preamble size key /\
  (result (VerifyFirmwarePreamble L C m preamble size key) = VBOOT_PREAMBLE_INVALID ->
   firmware_preamble_trailing_check_fails L m preamble).
Proof.
  unfold firmware_preamble_leading_checks, firmware_preamble_trailing_check_fails,
    VerifyFirmwarePreamble, bind, ret, result, trace.
  pose proof (VerifyData_trace m preamble size (field preamble (fp_preamble_signature L)) key)
    as Hvd.
  destruct (VerifyData C m preamble size (field preamble (fp_preamble_signature L)) key)
    as [rv t] eqn:E.
  unfold trace in Hvd. cbn [snd] in Hvd. cbn zeta.
  repeat break_if; cbn [fst snd app]; bool_facts; intros Ht;
    try (exfalso; apply Ht; reflexivity);
    rewrite app_nil_r in Ht; destruct (Hvd Ht) as (_ & Hs1 & Hs2);
    (split; [repeat split; try assumption; lia | try discriminate; intros _; auto]).
Qed.

Lemma VerifyKernelPreamble_order (m : mem) (preamble size : Z) (key : RSAPublicKey) :
  trace (VerifyKernelPreamble L C m preamble size key) <> [] ->
  kernel_preamble_leading_checks L C m preamble size key /\
  (result (VerifyKernelPreamble L C m preamble size key) = VBOOT_PREAMBLE_INVALID ->
   kernel_preamble_trailing_check_fails L m preamble).
Proof.
  unfold kernel_preamble_leading_checks, kernel_preamble_trailing_check_fails,
    VerifyKernelPreamble, bind, ret, result, trace.
  pose proof (VerifyData_trace m preamble size (field preamble (kp_preamble_signature L)) key)
    as Hvd.
  destruct (VerifyData C m preamble size (field preamble (kp_preamble_signature L)) key)
    as [rv t] eqn:E.
  unfold trace in Hvd. cbn [snd] in Hvd. cbn zeta.
  repeat break_if; cbn [fst snd app]; bool_facts; intros Ht;
    try (exfalso; apply Ht; reflexivity);
    rewrite app_nil_r in Ht; destruct (Hvd Ht) as (_ & Hs1 & Hs2);
    (split; [repeat split; try assumption; lia | try discriminate; intros _; auto]).
Qed.

Lemma VerifyData_run (m : mem) (data size sig : Z) (key : RSAPublicKey) :
  sig_size m sig = to_uint64 (siglen_map C (rsa_algorithm key)) ->
  data_size m sig <= size ->
  VerifyData C m data size sig key =
    ((if rsa_verdict C m data sig key =? 0 then 1 else 0),
     [EvRSAVerifyBinary data (data_size m sig) (GetSignatureDataC m sig)
                        (rsa_algorithm key)]).
Proof.
  intros Hlen Hsize. unfold VerifyData, rsa_verdict, bind, call, ret.
  rewrite Hlen, Z.eqb_refl. cbn [negb].
  destruct (Z.gtb_spec (data_size m sig) size); [lia|].
  break_if; reflexivity.
Qed.

Lemma KeyBlockVerify_signed_invalid_iff (m : mem) (block key : Z) :
  KeyBlockVerify_signed L m block
    (if key =? 0 then field block (kb_key_block_checksum L)
     else field block (kb_key_block_signature L)) = VBOOT_KEY_BLOCK_INVALID <->
  key_block_trailing_check_fails L m block key.
Proof.
  split; [apply KeyBlockVerify_signed_invalid|].
  unfold KeyBlockVerify_signed, key_block_trailing_check_fails. cbn zeta.
  repeat break_if; try reflexivity; bool_facts; intros [H|[H|H]];
    try lia; congruence.
Qed.

Lemma KeyBlockVerify_signed_not_others (m : mem) (block sig : Z) :
  KeyBlockVerify_signed L m block sig = VBOOT_SUCCESS \/
  KeyBlockVerify_signed L m block sig = VBOOT_KEY_BLOCK_INVALID.
Proof. unfold KeyBlockVerify_signed; repeat break_if; auto. Qed.

Lemma KeyBlockVerify_after_leading (m : mem) (block size key : Z) :
  key_block_leading_checks L C m block size key ->
  trace (KeyBlockVerify L C m block size key) <> [] /\
  (result (KeyBlockVerify L C m block size key) = VBOOT_KEY_BLOCK_INVALID <->
   key_block_primitive_accepts L C m block key /\
   key_block_trailing_check_fails L m block key).
Proof.
  unfold key_block_leading_checks, key_block_header_ok, key_block_primitive_accepts.
  intros ((Hmg & Hv & Hs) & Hrest).
  rewrite <- KeyBlockVerify_signed_invalid_iff.
  unfold KeyBlockVerify. rewrite Hmg, Hv, !Z.eqb_refl. cbn [Z.eqb negb].
  destruct (Z.ltb_spec size (key_block_size L m block)) as [?Hlt|?Hge]; [lia|].
  destruct (key =? 0) eqn:Hk; cbn [negb].
  - cbn zeta in Hrest. destruct Hrest as (Hin & Hsz).
    rewrite Hin, Hsz, !Z.eqb_refl. cbn [Z.eqb negb].
    unfold checksum_matches, bind, call, ret, result, trace. cbn zeta.
    destruct (Z.eqb_spec
                (SafeMemcmp
                   (DigestBuf C
                      (read_bytes m block
                         (data_size m (field block (kb_key_block_checksum L))))
                      (data_size m (field block (kb_key_block_checksum L)))
                      (SHA512_DIGEST_ALGORITHM C))
                   (read_bytes m
                      (GetSignatureDataC m (field block (kb_key_block_checksum L)))
                      SHA512_DIGEST_SIZE) SHA512_DIGEST_SIZE) 0) as [E|E];
      cbn [negb fst snd app].
    + split; [discriminate|]. tauto.
    + split; [discriminate|]. split; [discriminate|tauto].
  - cbn zeta in Hrest. destruct Hrest as (Hin & rsa & Hr & Hd & Hlen & Hsz).
    rewrite Hin, Hr, !Z.eqb_refl. cbn [Z.eqb negb].
    destruct (Z.ltb_spec (key_block_size L m block)
                (data_size m (field block (kb_key_block_signature L)))) as [?Hlt|?Hge]; [lia|].
    rewrite (VerifyData_run _ _ _ _ _ Hlen Hsz).
    unfold bind, ret, result, trace.
    destruct (Z.eqb_spec (rsa_verdict C m block
                            (field block (kb_key_block_signature L)) rsa) 0) as [E|E];
      cbn [Z.eqb negb fst snd app].
    + split; [discriminate|]. split; [discriminate|].
      intros ((r & Hr' & Hv') & _). inversion Hr'; subst r. contradiction.
    + split; [discriminate|]. split.
      * intros H. split; [|exact H]. exists rsa. split; [reflexivity|exact E].
      * intros (_ & H). exact H.
Qed.

Lemma VerifyFirmwarePreamble_after_leading (m : mem) (preamble size : Z)
      (key : RSAPublicKey) :
  firmware_preamble_leading_checks L C m preamble size key ->
  trace (VerifyFirmwarePreamble L C m preamble size key) <> [] /\
  (result (VerifyFirmwarePreamble L C m preamble size key) = VBOOT_PREAMBLE_INVALID <->
   firmware_preamble_primitive_accepts L C m preamble key /\
   firmware_preamble_trailing_check_fails L m preamble).
Proof.
  unfold firmware_preamble_leading_checks, firmware_preamble_primitive_accepts,
    firmware_preamble_trailing_check_fails. cbn zeta.
  intros (Hv & Hs & Hin & Hd & Hlen & Hsz).
  unfold VerifyFirmwarePreamble. cbn zeta.
  rewrite Hv, Hin, !Z.eqb_refl. cbn [Z.eqb negb].
  destruct (Z.ltb_spec size (fp_size L m preamble)) as [?Hlt|?Hge]; [lia|].
  destruct (Z.ltb_spec (fp_size L m preamble)
              (data_size m (field preamble (fp_preamble_signature L)))) as [?Hlt|?Hge]; [lia|].
  rewrite (VerifyData_run _ _ _ _ _ Hlen Hsz).
  unfold bind, ret, result, trace.
  destruct (Z.eqb_spec (rsa_verdict C m preamble
                          (field preamble (fp_preamble_signature L)) key) 0) as [E|E];
    cbn [Z.eqb negb fst snd app].
  - split; [discriminate|]. split; [discriminate|]. intros (H & _). contradiction.
  - repeat break_if; cbn [fst snd app]; bool_facts; (split; [discriminate|]); split;
      try discriminate; try reflexivity;
      try (intros _; split; [exact E|]; auto; fail);
      intros (_ & [Hq|[Hq|Hq]]); try lia; congruence.
Qed.

Lemma VerifyKernelPreamble_after_leading (m : mem) (preamble size : Z)
      (key : RSAPublicKey) :
  kernel_preamble_leading_checks L C m preamble size key ->
  trace (VerifyKernelPreamble L C m preamble size key) <> [] /\
  (result (VerifyKernelPreamble L C m preamble size key) = VBOOT_PREAMBLE_INVALID <->
   kernel_preamble_primitive_accepts L C m preamble key /\
   kernel_preamble_trailing_check_fails L m preamble).
Proof.
  unfold kernel_preamble_leading_checks, kernel_preamble_primitive_accepts,
    kernel_preamble_trailing_check_fails. cbn zeta.
  intros (Hv & Hs & Hin & Hlen & Hsz).
  unfold VerifyKernelPreamble. cbn zeta.
  rewrite Hv, Hin, !Z.eqb_refl. cbn [Z.eqb negb].
  destruct (Z.ltb_spec size (kp_size L m preamble)) as [?Hlt|?Hge]; [lia|].
  rewrite (VerifyData_run _ _ _ _ _ Hlen Hsz).
  unfold bind, ret, result, trace.
  destruct (Z.eqb_spec (rsa_verdict C m preamble
                          (field preamble (kp_preamble_signature L)) key) 0) as [E|E];
    cbn [Z.eqb negb fst snd app].
  - split; [discriminate|]. split; [discriminate|]. intros (H & _). contradiction.
  - repeat break_if; cbn [fst snd app]; bool_facts; (split; [discriminate|]); split;
      try discriminate; try reflexivity;
      try (intros _; split; [exact E|]; auto; fail);
      intros (_ & [Hq|Hq]); try lia; congruence.
Qed.


End VerifierFacts.

(** ** Runs on explicit inputs *)



(** C3.  Acceptance does not give containment of the data key: the key
    block below is accepted in hash mode while the [key_size] of its data
    key is 2^64 - 1, so that the payload, which starts at offset 112,
    reaches far beyond the 312 bytes of the block and beyond the 120
    signed ones.  In the two calls of [VerifyPublicKeyInside] the sum
    [end + member_data_size] wraps around to 111. *)
Theorem KeyBlockVerify_accepts_unbounded_data_key :
  let m := key_block_mem 120 (2 ^ 64 - 1) 264 in
  let data_key := field BLOCK (kb_data_key spec_layout) in
  let sig := field BLOCK (kb_key_block_checksum spec_layout) in
  KeyBlockVerify spec_layout stub_crypto m BLOCK 312 0
  = (VBOOT_SUCCESS, [EvDigestBuf BLOCK 120 2]) /\
  key_block_size spec_layout m BLOCK = 312 /\
  data_size m sig = 120 /\
  ~ member_inside_spec BLOCK (key_block_size spec_layout m BLOCK) data_key
      sizeof_VbPublicKey (key_offset m data_key) (key_size m data_key) /\
  ~ member_inside_spec BLOCK (data_size m sig) data_key
      sizeof_VbPublicKey (key_offset m data_key) (key_size m data_key).
Proof.
  cbn zeta.
  assert (Hs : key_block_size spec_layout (key_block_mem 120 (2 ^ 64 - 1) 264) BLOCK = 312)
    by (vm_compute; reflexivity).
  assert (Hd : data_size (key_block_mem 120 (2 ^ 64 - 1) 264)
                 (field BLOCK (kb_key_block_checksum spec_layout)) = 120)
    by (vm_compute; reflexivity).
  assert (Ho : key_offset (key_block_mem 120 (2 ^ 64 - 1) 264)
                 (field BLOCK (kb_data_key spec_layout)) = 32)
    by (vm_compute; reflexivity).
  assert (Hk : key_size (key_block_mem 120 (2 ^ 64 - 1) 264)
                 (field BLOCK (kb_data_key spec_layout)) = 18446744073709551615)
    by (vm_compute; reflexivity).
  assert (Hf : field BLOCK (kb_data_key spec_layout) = 4176)
    by (vm_compute; reflexivity).
  rewrite Hs, Hd, Ho, Hk, Hf.
  repeat split; try (vm_compute; reflexivity);
    unfold member_inside_spec, BLOCK; lia.
Qed.

(** C6.  A root key whose [key_size] differs from the processed length of
    its algorithm is not always refused: [PublicKeyToRSA] compares the two
    as [int], so that the size 2^32 + 264 passes for the 264 bytes of
    algorithm 0, and the key block is verified against the key. *)
Theorem KeyBlockVerify_accepts_oversized_root_key :
  let m := key_block_mem 120 8 (2 ^ 32 + 264) in
  key_block_header_ok spec_layout m BLOCK 312 /\
  VerifySignatureInside m BLOCK (key_block_size spec_layout m BLOCK)
    (field BLOCK (kb_key_block_signature spec_layout)) = 0 /\
  algorithm m ROOT = 0 /\
  key_size m ROOT = 2 ^ 32 + 264 /\
  RSAProcessedKeySize stub_crypto 0 = 264 /\
  KeyBlockVerify spec_layout stub_crypto m BLOCK 312 ROOT
  = (VBOOT_SUCCESS, [EvRSAVerifyBinary BLOCK 120 4280 0]).
Proof.
  cbn zeta. unfold key_block_header_ok.
  repeat split; try (vm_compute; reflexivity).
  apply Z.leb_le; vm_compute; reflexivity.
Qed.

(** Evaluates the closed field addresses of the goal. *)
Ltac eval_fields :=
  repeat match goal with
         | |- context [field ?a ?b] =>
             let v := eval vm_compute in (field a b) in
             change (field a b) with v
         end.

(** C4.  [VerifyKernelPreamble] makes the checks of the firmware verifier
    but the bound on the kernel subkey and the comparison of
    [preamble_size] with [preamble_signature.data_size]: it accepts exactly
    when version, size, containment of the preamble signature, signature
    verification, [data_size >= sizeof(VbKernelPreambleHeader)] and
    containment of the body signature pass, whereas the firmware verifier
    accepts only with [data_size <= preamble_size] and a kernel subkey
    that its check finds inside.  Every memory that holds the 104-byte
    header below at [BLOCK] has a [preamble_size] of 240 and a [data_size]
    of 248, within a buffer of 256 bytes, and is accepted under every
    library and key for which the signature verifies. *)
Theorem VerifyKernelPreamble_lacks_data_size_bound :
  (forall L C m preamble size key,
      let sig := field preamble (kp_preamble_signature L) in
      result (VerifyKernelPreamble L C m preamble size key) = VBOOT_SUCCESS <->
      kp_major L m preamble = KERNEL_PREAMBLE_HEADER_VERSION_MAJOR L /\
      kp_size L m preamble <= size /\
      VerifySignatureInside m preamble (kp_size L m preamble) sig = 0 /\
      result (VerifyData C m preamble size sig key) = 0 /\
      sizeof_VbKernelPreambleHeader L <= data_size m sig /\
      VerifySignatureInside m preamble (kp_size L m preamble)
        (field preamble (kp_body_signature L)) = 0) /\
  (forall L C m preamble size key,
      result (VerifyFirmwarePreamble L C m preamble size key) = VBOOT_SUCCESS ->
      data_size m (field preamble (fp_preamble_signature L)) <= fp_size L m preamble /\
      VerifyPublicKeyInside m preamble (fp_size L m preamble)
        (field preamble (fp_kernel_subkey L)) = 0) /\
  (forall m,
      read_bytes m BLOCK 104 = kernel_preamble_header 248 ->
      let sig := field BLOCK (kp_preamble_signature spec_layout) in
      kp_size spec_layout m BLOCK = 240 /\
      data_size m sig = 248 /\
      forall C key,
        result (VerifyData C m BLOCK 256 sig key) = 0 ->
        result (VerifyKernelPreamble spec_layout C m BLOCK 256 key) = VBOOT_SUCCESS).
Proof.
  split; [|split].
  - intros. apply VerifyKernelPreamble_ok_iff.
  - intros L C m preamble size key H.
    apply VerifyFirmwarePreamble_ok_iff in H. cbn zeta in H. tauto.
  - intros m Hm sig.
    assert (Hm0 : read_bytes m BLOCK 104
                  = read_bytes (mem_of_bytes BLOCK (kernel_preamble_header 248)) BLOCK 104)
      by (rewrite Hm; vm_compute; reflexivity).
    assert (F : forall q, BLOCK <= q -> q + 8 <= BLOCK + 104 ->
                  load m q 8 = load (mem_of_bytes BLOCK (kernel_preamble_header 248)) q 8).
    { intros q H1 H2. apply (load_within m _ BLOCK 104); try assumption;
        unfold is_uint64, BLOCK; change (2 ^ 64) with 18446744073709551616; lia. }
    assert (E1 : kp_size spec_layout m BLOCK = 240).
    { unfold kp_size. eval_fields. rewrite F by (unfold BLOCK; lia).
      vm_compute; reflexivity. }
    assert (E2 : data_size m sig = 248).
    { unfold sig, data_size. eval_fields. rewrite F by (unfold BLOCK; lia).
      vm_compute; reflexivity. }
    split; [exact E1|]. split; [exact E2|].
    intros C key Hv. apply VerifyKernelPreamble_ok_iff. cbn zeta. fold sig.
    rewrite E1, E2.
    assert (E3 : kp_major spec_layout m BLOCK = 2).
    { unfold kp_major. cbn [version_width spec_layout]. eval_fields.
      rewrite F by (unfold BLOCK; lia). vm_compute; reflexivity. }
    assert (E4 : VerifySignatureInside m BLOCK 240 sig = 0).
    { unfold sig, VerifySignatureInside, sig_offset, sig_size. eval_fields.
      rewrite !F by (unfold BLOCK; lia). vm_compute; reflexivity. }
    assert (E5 : VerifySignatureInside m BLOCK 240
                   (field BLOCK (kp_body_signature spec_layout)) = 0).
    { unfold VerifySignatureInside, sig_offset, sig_size. eval_fields.
      rewrite !F by (unfold BLOCK; lia). vm_compute; reflexivity. }
    rewrite E3, E4, E5.
    repeat split; try exact Hv; try reflexivity;
      cbn [sizeof_VbKernelPreambleHeader spec_layout]; lia.
Qed.

Lemma VerifyKernelPreamble_lacks_data_size_bound_witness :
  read_bytes (kernel_preamble_mem 248 (pad 16 5)) BLOCK 104 = kernel_preamble_header 248 /\
  result (VerifyData stub_crypto (kernel_preamble_mem 248 (pad 16 5)) BLOCK 256
            (field BLOCK (kp_preamble_signature spec_layout)) root_rsa) = 0 /\
  result (VerifyKernelPreamble spec_layout stub_crypto
            (kernel_preamble_mem 248 (pad 16 5)) BLOCK 256 root_rsa) = VBOOT_SUCCESS.
Proof.
  assert (Hm : read_bytes (kernel_preamble_mem 248 (pad 16 5)) BLOCK 104
               = kernel_preamble_header 248) by (vm_compute; reflexivity).
  assert (Hv : result (VerifyData stub_crypto (kernel_preamble_mem 248 (pad 16 5)) BLOCK 256
                  (field BLOCK (kp_preamble_signature spec_layout)) root_rsa) = 0)
    by (vm_compute; reflexivity).
  split; [exact Hm|]. split; [exact Hv|].
  destruct VerifyKernelPreamble_lacks_data_size_bound as (_ & _ & H).
  destruct (H _ Hm) as (_ & _ & Ha).
  apply Ha. exact Hv.
Defined.

(** With [data_size] beyond [preamble_size] the preamble signature lies
    among the bytes it signs: where the end of its payload does not wrap,
    a signature that [VerifySignatureInside] finds inside has its payload
    before byte [data_size]. *)
Lemma oversigned_preamble_signs_its_signature (m : mem) (preamble psize sig : Z) :
  VerifySignatureInside m preamble psize sig = 0 ->
  psize < data_size m sig ->
  let start := to_uint64 (OffsetOf preamble sig + sig_offset m sig) in
  start + sig_size m sig < 2 ^ 64 ->
  start + sig_size m sig < data_size m sig.
Proof.
  intros H Hlt start Hnw.
  unfold VerifySignatureInside, VerifyMemberInside in H. fold start in H.
  assert (Hs : is_uint64 (sig_size m sig)) by (unfold sig_size; apply load_range).
  assert (H0 : 0 <= start) by (unfold start; solve_uint64).
  rewrite (to_uint64_small (start + sig_size m sig)) in H
    by (unfold is_uint64 in *; lia).
  repeat break_if; try discriminate. bool_facts. lia.
Qed.

(** [VerifyFirmwarePreamble] applies its member-inside check to the body
    signature and to the kernel subkey with [preamble_size] as the parent
    size and with no other: acceptance comes with the two checks having
    answered "inside", and the preamble below, whose signature covers the
    112 bytes of the header, is accepted whenever that signature verifies
    although the payload of its kernel subkey occupies the bytes 240 to
    248, in the unsigned tail. *)
Lemma VerifyFirmwarePreamble_bounds_by_preamble_size_only :
  (forall L C m preamble size key,
      result (VerifyFirmwarePreamble L C m preamble size key) = VBOOT_SUCCESS ->
      VerifySignatureInside m preamble (fp_size L m preamble)
        (field preamble (fp_body_signature L)) = 0 /\
      VerifyPublicKeyInside m preamble (fp_size L m preamble)
        (field preamble (fp_kernel_subkey L)) = 0) /\
  (let m := firmware_preamble_mem in
   let sig := field BLOCK (fp_preamble_signature spec_layout) in
   let subkey := field BLOCK (fp_kernel_subkey spec_layout) in
   fp_size spec_layout m BLOCK = 256 /\
   data_size m sig = 112 /\
   OffsetOf BLOCK (GetPublicKeyData m subkey) = 240 /\
   key_size m subkey = 8 /\
   forall C key,
     result (VerifyData C m BLOCK 256 sig key) = 0 ->
     result (VerifyFirmwarePreamble spec_layout C m BLOCK 256 key) = VBOOT_SUCCESS).
Proof.
  split.
  - intros L C m preamble size key H.
    apply VerifyFirmwarePreamble_ok_iff in H. cbn zeta in H. tauto.
  - cbn zeta. repeat (split; [vm_compute; reflexivity|]).
    intros C key Hv. apply VerifyFirmwarePreamble_ok_iff. cbn zeta.
    repeat split; try exact Hv; try (vm_compute; reflexivity);
      apply Z.leb_le; vm_compute; reflexivity.
Qed.

Lemma VerifyFirmwarePreamble_bounds_by_preamble_size_only_witness :
  result (VerifyData stub_crypto firmware_preamble_mem BLOCK 256
            (field BLOCK (fp_preamble_signature spec_layout)) root_rsa) = 0 /\
  result (VerifyFirmwarePreamble spec_layout stub_crypto
            firmware_preamble_mem BLOCK 256 root_rsa) = VBOOT_SUCCESS.
Proof.
  assert (Hv : result (VerifyData stub_crypto firmware_preamble_mem BLOCK 256
                  (field BLOCK (fp_preamble_signature spec_layout)) root_rsa) = 0)
    by (vm_compute; reflexivity).
  split; [exact Hv|].
  destruct VerifyFirmwarePreamble_bounds_by_preamble_size_only
    as (_ & _ & _ & _ & _ & H).
  apply H. exact Hv.
Defined.

(** C8.  Acceptance of a firmware preamble does not give containment of
    the kernel subkey in the first [preamble_size] bytes: the preamble
    below is accepted while the [key_size] of its kernel subkey is
    2^64 - 1, so that the payload, which starts at byte 240, reaches far
    beyond the 256 bytes of the preamble.  In [VerifyPublicKeyInside] the
    sum [end + member_data_size] wraps around to 239. *)
Theorem VerifyFirmwarePreamble_accepts_unbounded_kernel_subkey :
  let m := firmware_preamble_mem_with (2 ^ 64 - 1) in
  let subkey := field BLOCK (fp_kernel_subkey spec_layout) in
  VerifyFirmwarePreamble spec_layout stub_crypto m BLOCK 256 root_rsa
  = (VBOOT_SUCCESS, [EvRSAVerifyBinary BLOCK 112 4208 0]) /\
  fp_size spec_layout m BLOCK = 256 /\
  key_offset m subkey = 208 /\
  key_size m subkey = 2 ^ 64 - 1 /\
  VerifyPublicKeyInside m BLOCK (fp_size spec_layout m BLOCK) subkey = 0 /\
  ~ member_inside_spec BLOCK (fp_size spec_layout m BLOCK) subkey
      sizeof_VbPublicKey (key_offset m subkey) (key_size m subkey).
Proof.
  cbn zeta.
  assert (Hs : fp_size spec_layout (firmware_preamble_mem_with (2 ^ 64 - 1)) BLOCK = 256)
    by (vm_compute; reflexivity).
  assert (Ho : key_offset (firmware_preamble_mem_with (2 ^ 64 - 1))
                 (field BLOCK (fp_kernel_subkey spec_layout)) = 208)
    by (vm_compute; reflexivity).
  assert (Hk : key_size (firmware_preamble_mem_with (2 ^ 64 - 1))
                 (field BLOCK (fp_kernel_subkey spec_layout)) = 2 ^ 64 - 1)
    by (vm_compute; reflexivity).
  assert (Hf : field BLOCK (fp_kernel_subkey spec_layout) = 4128)
    by (vm_compute; reflexivity).
  split; [vm_compute; reflexivity|].
  split; [exact Hs|]. split; [exact Ho|]. split; [exact Hk|].
  split.
  - unfold VerifyPublicKeyInside. rewrite Hs, Ho, Hk. vm_compute; reflexivity.
  - rewrite Hs, Ho, Hk, Hf. unfold member_inside_spec, BLOCK, sizeof_VbPublicKey.
    change (2 ^ 64) with 18446744073709551616. lia.
Qed.

Lemma KeyBlockVerify_hash_mode_witness :
  key_block_header_ok spec_layout (key_block_mem 120 8 264) BLOCK 312 /\
  trace (KeyBlockVerify spec_layout stub_crypto (key_block_mem 120 8 264) BLOCK 312 0)
  = [EvDigestBuf BLOCK 120 2].
Proof.
  assert (Hh : key_block_header_ok spec_layout (key_block_mem 120 8 264) BLOCK 312).
  { unfold key_block_header_ok. repeat split; try (vm_compute; reflexivity).
    apply Z.leb_le; vm_compute; reflexivity. }
  split; [exact Hh|].
  destruct (KeyBlockVerify_hash_mode spec_layout stub_crypto
              (key_block_mem 120 8 264) BLOCK 312 Hh) as (_ & H).
  - vm_compute; reflexivity.
  - destruct H as (H & _); [vm_compute; reflexivity|].
    rewrite H. vm_compute; reflexivity.
Defined.

Lemma truncation_monotonicity_witness :
  result (KeyBlockVerify spec_layout stub_crypto (key_block_mem 120 8 264)
            BLOCK 400 ROOT) = VBOOT_SUCCESS /\
  result (VerifyFirmwarePreamble spec_layout stub_crypto firmware_preamble_mem
            BLOCK 400 root_rsa) = VBOOT_SUCCESS /\
  result (VerifyKernelPreamble spec_layout stub_crypto
            (kernel_preamble_mem 240 (pad 16 5)) BLOCK 400 root_rsa) = VBOOT_SUCCESS.
Proof.
  assert (Hle : 312 <= 400) by lia.
  assert (Hle' : 256 <= 400) by lia.
  split; [|split].
  - apply (proj1 (truncation_monotonicity spec_layout stub_crypto
                    (key_block_mem 120 8 264) BLOCK 312 400 Hle)).
    vm_compute; reflexivity.
  - apply (proj1 (proj2 (truncation_monotonicity spec_layout stub_crypto
                    firmware_preamble_mem BLOCK 256 400 Hle'))).
    vm_compute; reflexivity.
  - apply (proj2 (proj2 (truncation_monotonicity spec_layout stub_crypto
                    (kernel_preamble_mem 240 (pad 16 5)) BLOCK 256 400 Hle'))).
    vm_compute; reflexivity.
Defined.

Lemma VerifyDigest_ignores_data_size_witness :
  data_size (signature_mem 100) BLOCK <> data_size (signature_mem 5000) BLOCK /\
  result (VerifyDigest stub_crypto (signature_mem 100) sample_digest BLOCK root_rsa) =
  result (VerifyDigest stub_crypto (signature_mem 5000) sample_digest BLOCK root_rsa) /\
  result (VerifyDigest stub_crypto (signature_mem 5000) sample_digest BLOCK root_rsa) = 0.
Proof.
  split; [vm_compute; discriminate|].
  split; [|vm_compute; reflexivity].
  apply (VerifyDigest_ignores_data_size stub_crypto (signature_mem 100)
           (signature_mem 5000) BLOCK BLOCK sample_digest root_rsa);
    vm_compute; reflexivity.
Defined.

(** ** [PublicKeyCopy] *)

Ltac side_conditions :=
  unfold ranges_disjoint, sizeof_VbPublicKey, is_uint64 in *;
  change (2 ^ 64) with 18446744073709551616 in *; lia.

(** On error nothing is written. *)
Lemma PublicKeyCopy_error (m : mem) (dest src : Z) :
  key_size m dest < key_size m src ->
  PublicKeyCopy m dest src = (1, m).
Proof.
  intros H. unfold PublicKeyCopy.
  destruct (Z.ltb_spec (key_size m dest) (key_size m src)); [reflexivity|lia].
Qed.

(** *** Ranges of addresses modulo 2^64 *)

Ltac modular :=
  unfold ranges_apart, in_range, field, to_uint64 in *;
  change (2 ^ 64) with 18446744073709551616 in *;
  Z.div_mod_to_equations; lia.

Lemma write_bytes_not_in_range (m : mem) (p : Z) (bs : list byte) (a : Z) :
  ~ in_range p (Z.of_nat (length bs)) a -> write_bytes m p bs a = m a.
Proof.
  intros H. unfold write_bytes. cbn zeta.
  destruct (Z.ltb_spec (to_uint64 (a - p)) (Z.of_nat (length bs))); [|reflexivity].
  exfalso. apply H. assumption.
Qed.

Lemma ranges_apart_not_in_range (p len q n i : Z) :
  ranges_apart p len q n -> 0 <= i < n -> ~ in_range p len (to_uint64 (q + i)).
Proof. intros H Hi. modular. Qed.

Lemma read_write_apart (m : mem) (p : Z) (bs : list byte) (q n : Z) :
  ranges_apart p (Z.of_nat (length bs)) q n ->
  read_bytes (write_bytes m p bs) q n = read_bytes m q n.
Proof.
  intros Hd. apply read_bytes_ext. intros i Hi.
  apply write_bytes_not_in_range. apply (ranges_apart_not_in_range _ _ q n); assumption.
Qed.

Lemma ranges_apart_sym (a n b k : Z) :
  ranges_apart a n b k -> ranges_apart b k a n.
Proof. intros H. modular. Qed.

Lemma ranges_apart_sub (a n b k a' n' b' k' x y : Z) :
  ranges_apart a n b k ->
  to_uint64 a' = to_uint64 (a + x) -> 0 <= x -> x + n' <= n ->
  to_uint64 b' = to_uint64 (b + y) -> 0 <= y -> y + k' <= k ->
  ranges_apart a' n' b' k'.
Proof. intros H Ea Hx Hn Eb Hy Hk. modular. Qed.

Lemma load_store_apart (m : mem) (p v q : Z) :
  ranges_apart p 8 q 8 -> load (store m p 8 v) q 8 = load m q 8.
Proof.
  intros H. unfold load, store. rewrite read_write_apart; [reflexivity|].
  rewrite length_le_split. exact H.
Qed.

Lemma read_store_apart (m : mem) (p v q n : Z) :
  ranges_apart p 8 q n -> read_bytes (store m p 8 v) q n = read_bytes m q n.
Proof.
  intros H. unfold store. apply read_write_apart. rewrite length_le_split. exact H.
Qed.

Lemma store_not_in_range (m : mem) (p v a : Z) :
  ~ in_range p 8 a -> store m p 8 v a = m a.
Proof.
  intros H. unfold store. apply write_bytes_not_in_range. rewrite length_le_split. exact H.
Qed.

Lemma fields_apart (a b k x y k' : Z) :
  ranges_apart a 32 b k -> 0 <= x -> x + 8 <= 32 -> 0 <= y -> y + k' <= k ->
  ranges_apart (field a x) 8 (field b y) k'.
Proof. intros H Hx Hx' Hy Hy'. modular. Qed.

Lemma field_range_apart (a q n x : Z) :
  ranges_apart a 32 q n -> 0 <= x -> x + 8 <= 32 ->
  ranges_apart (field a x) 8 q n.
Proof. intros H Hx Hx'. modular. Qed.

Lemma range_field_apart (a q n x : Z) :
  ranges_apart a 32 q n -> 0 <= x -> x + 8 <= 32 ->
  ranges_apart q n (field a x) 8.
Proof. intros H Hx Hx'. modular. Qed.

Lemma same_header_apart (a x y : Z) :
  0 <= x <= 24 -> 0 <= y <= 24 -> x + 8 <= y \/ y + 8 <= x ->
  ranges_apart (field a x) 8 (field a y) 8.
Proof. intros Hx Hy H. modular. Qed.

Lemma PublicKeyCopy_success (m : mem) (dest src : Z) :
  key_size m src <= key_size m dest ->
  copy_separated m dest src ->
  let m' := snd (PublicKeyCopy m dest src) in
  fst (PublicKeyCopy m dest src) = 0 /\
  key_size m' dest = key_size m src /\
  algorithm m' dest = algorithm m src /\
  key_version m' dest = key_version m src /\
  read_bytes m' (GetPublicKeyData m' dest) (key_size m src) =
    read_bytes m (GetPublicKeyDataC m src) (key_size m src) /\
  key_offset m' dest = key_offset m dest /\
  (forall a,
     ~ in_range (dest + offsetof_key_size) (sizeof_VbPublicKey - offsetof_key_size) a ->
     ~ in_range (GetPublicKeyData m dest) (key_size m src) a ->
     m' a = m a).
Proof.
  intros Hle Hsep. unfold PublicKeyCopy.
  destruct (Z.ltb_spec (key_size m dest) (key_size m src)); [lia|].
  cbn zeta. cbn [fst snd].
  unfold copy_separated in Hsep. cbn zeta in Hsep.
  destruct Hsep as (Xhh & Xhd & Xhs & Xps).
  unfold sizeof_VbPublicKey in *.
  unfold GetPublicKeyDataC in *.
  unfold GetPublicKeyData, key_size, algorithm, key_version, key_offset in *.
  unfold offsetof_key_offset, offsetof_key_size, offsetof_algorithm,
    offsetof_key_version in *.
  pose proof (load_range m (field src 8)) as Rn.
  set (n := load m (field src 8) 8) in *.
  set (d_off := load m (field dest 0) 8) in *.
  set (s_off := load m (field src 0) 8) in *.
  set (dp := to_uint64 (dest + d_off)) in *.
  set (sp := to_uint64 (src + s_off)) in *.
  assert (HS : forall x y, 0 <= x -> x + 8 <= 32 -> 0 <= y -> y + 8 <= 32 ->
                           ranges_apart (field dest x) 8 (field src y) 8)
    by (intros; apply (fields_apart dest src 32); assumption).
  assert (HSP : forall x, 0 <= x -> x + 8 <= 32 -> ranges_apart (field dest x) 8 sp n)
    by (intros; apply field_range_apart; assumption).
  assert (HDP : forall x, 0 <= x -> x + 8 <= 32 -> ranges_apart dp n (field dest x) 8)
    by (intros; apply range_field_apart; assumption).
  set (m1 := store m (field dest 8) 8 n).
  assert (F1 : load m1 (field src 16) 8 = load m (field src 16) 8)
    by (apply load_store_apart; apply HS; lia).
  rewrite F1.
  set (m2 := store m1 (field dest 16) 8 (load m (field src 16) 8)).
  assert (F2 : load m2 (field src 24) 8 = load m (field src 24) 8).
  { unfold m2, m1. rewrite !load_store_apart by (apply HS; lia). reflexivity. }
  rewrite F2.
  set (m3 := store m2 (field dest 24) 8 (load m (field src 24) 8)).
  assert (F3 : load m3 (field src 8) 8 = n).
  { unfold m3, m2, m1. rewrite !load_store_apart by (apply HS; lia). reflexivity. }
  assert (F4 : load m3 (field src 0) 8 = s_off).
  { unfold m3, m2, m1. rewrite !load_store_apart by (apply HS; lia). reflexivity. }
  assert (F5 : load m3 (field dest 0) 8 = d_off).
  { unfold m3, m2, m1.
    rewrite !load_store_apart by (apply same_header_apart; lia). reflexivity. }
  rewrite F3, F4, F5. fold dp sp.
  assert (F6 : read_bytes m3 sp n = read_bytes m sp n).
  { unfold m3, m2, m1. rewrite !read_store_apart by (apply HSP; lia). reflexivity. }
  unfold Memcpy. rewrite F6.
  set (bs := read_bytes m sp n).
  assert (Lbs : Z.of_nat (length bs) = n).
  { unfold bs. rewrite length_read_bytes. apply Z2Nat.id. unfold is_uint64 in Rn. lia. }
  set (m4 := write_bytes m3 dp bs).
  assert (G : forall x, 0 <= x -> x + 8 <= 32 ->
                        load m4 (field dest x) 8 = load m3 (field dest x) 8).
  { intros x Hx1 Hx2. unfold load, m4.
    rewrite read_write_apart; [reflexivity|]. rewrite Lbs. apply HDP; assumption. }
  assert (Edo : load m4 (field dest 0) 8 = d_off) by (rewrite G by lia; exact F5).
  rewrite Edo. fold dp.
  split; [reflexivity|].
  split.
  { rewrite G by lia. unfold m3, m2.
    rewrite !load_store_apart by (apply same_header_apart; lia).
    unfold m1. apply load_store_same. exact Rn. }
  split.
  { rewrite G by lia. unfold m3.
    rewrite !load_store_apart by (apply same_header_apart; lia).
    unfold m2. apply load_store_same. apply load_range. }
  split.
  { rewrite G by lia. unfold m3. apply load_store_same. apply load_range. }
  split.
  { unfold m4. rewrite <- Lbs. apply read_write_same. rewrite Lbs.
    unfold is_uint64 in Rn. lia. }
  split; [reflexivity|].
  intros a Hhdr Hpay. unfold m4.
  rewrite write_bytes_not_in_range by (rewrite Lbs; exact Hpay).
  unfold m3, m2, m1.
  rewrite !store_not_in_range; [reflexivity| | |]; revert Hhdr; clear; intros Hhdr; modular.
Qed.

(** C10 (as amended).  [PublicKeyCopy] is atomic on error: when the
    destination is too small it returns 1 and leaves memory as it was.
    Otherwise, provided the header of the destination has no address in
    common with the header of the source or with either payload, and the
    two payloads have none in common, it returns 0, the destination has
    the [key_size], [algorithm] and [key_version] of the source, its
    payload holds the [key_size] payload bytes of the source, its
    [key_offset] is unchanged, and no byte outside these three fields and
    that payload is written.  Addresses are taken modulo 2^64, and nothing
    is asked of where the payloads lie relative to the headers. *)
Theorem PublicKeyCopy_atomic (m : mem) (dest src : Z) :
  (key_size m dest < key_size m src ->
   PublicKeyCopy m dest src = (1, m)) /\
  (key_size m src <= key_size m dest ->
   copy_separated m dest src ->
   let m' := snd (PublicKeyCopy m dest src) in
   fst (PublicKeyCopy m dest src) = 0 /\
   key_size m' dest = key_size m src /\
   algorithm m' dest = algorithm m src /\
   key_version m' dest = key_version m src /\
   read_bytes m' (GetPublicKeyData m' dest) (key_size m src) =
     read_bytes m (GetPublicKeyDataC m src) (key_size m src) /\
   key_offset m' dest = key_offset m dest /\
   (forall a,
      ~ in_range (dest + offsetof_key_size) (sizeof_VbPublicKey - offsetof_key_size) a ->
      ~ in_range (GetPublicKeyData m dest) (key_size m src) a ->
      m' a = m a)).
Proof.
  split.
  - apply PublicKeyCopy_error.
  - apply PublicKeyCopy_success.
Qed.

(** C10 (as stated) fails for a destination whose payload overlaps its own
    header: with [key_offset] 0 the copy of the payload lands on the
    [key_offset] field itself. *)
Lemma PublicKeyCopy_overwrites_key_offset :
  key_size (copy_mem 0 8) ROOT <= key_size (copy_mem 0 8) BLOCK /\
  fst (PublicKeyCopy (copy_mem 0 8) BLOCK ROOT) = 0 /\
  key_offset (copy_mem 0 8) BLOCK = 0 /\
  key_offset (snd (PublicKeyCopy (copy_mem 0 8) BLOCK ROOT)) BLOCK
  = 506381209866536711.
Proof.
  split; [apply Z.leb_le; vm_compute; reflexivity|].
  repeat split; vm_compute; reflexivity.
Qed.

Lemma PublicKeyCopy_atomic_witness :
  GetPublicKeyData copy_mem_before BLOCK = BLOCK - 64 /\
  copy_separated copy_mem_before BLOCK ROOT /\
  PublicKeyCopy (copy_mem 32 4) BLOCK ROOT = (1, copy_mem 32 4) /\
  key_size (snd (PublicKeyCopy copy_mem_before BLOCK ROOT)) BLOCK = 8 /\
  algorithm (snd (PublicKeyCopy copy_mem_before BLOCK ROOT)) BLOCK = 4 /\
  read_bytes (snd (PublicKeyCopy copy_mem_before BLOCK ROOT)) (BLOCK - 64) 8 = pad 8 7 /\
  key_offset (snd (PublicKeyCopy copy_mem_before BLOCK ROOT)) BLOCK = 2 ^ 64 - 64.
Proof.
  assert (Ks : key_size copy_mem_before ROOT = 8) by (vm_compute; reflexivity).
  assert (Kd : key_size copy_mem_before BLOCK = 8) by (vm_compute; reflexivity).
  assert (Od : key_offset copy_mem_before BLOCK = 2 ^ 64 - 64) by (vm_compute; reflexivity).
  assert (As : algorithm copy_mem_before ROOT = 4) by (vm_compute; reflexivity).
  assert (Pd : GetPublicKeyData copy_mem_before BLOCK = BLOCK - 64)
    by (vm_compute; reflexivity).
  assert (Ps : GetPublicKeyDataC copy_mem_before ROOT = ROOT + 32)
    by (vm_compute; reflexivity).
  assert (Rs : read_bytes copy_mem_before (ROOT + 32) 8 = pad 8 7)
    by (vm_compute; reflexivity).
  assert (Hsep : copy_separated copy_mem_before BLOCK ROOT).
  { unfold copy_separated. cbn zeta. rewrite Ks, Pd, Ps.
    unfold ranges_apart, sizeof_VbPublicKey, BLOCK, ROOT.
    repeat split; right; right; split; apply Z.leb_le; vm_compute; reflexivity. }
  assert (Hle : key_size copy_mem_before ROOT <= key_size copy_mem_before BLOCK)
    by (rewrite Ks, Kd; lia).
  assert (Hlt : key_size (copy_mem 32 4) BLOCK < key_size (copy_mem 32 4) ROOT)
    by (apply Z.ltb_lt; vm_compute; reflexivity).
  split; [exact Pd|]. split; [exact Hsep|].
  split; [exact (proj1 (PublicKeyCopy_atomic (copy_mem 32 4) BLOCK ROOT) Hlt)|].
  destruct (proj2 (PublicKeyCopy_atomic copy_mem_before BLOCK ROOT) Hle Hsep)
    as (_ & H1 & H2 & _ & H4 & H3 & _).
  unfold GetPublicKeyData in H4 at 1. rewrite H3 in H4.
  fold (GetPublicKeyData copy_mem_before BLOCK) in H4.
  rewrite Pd, Ks, Ps, Rs in H4.
  rewrite H1, H2, H3, Ks, As, Od. repeat split; exact H4.
Defined.

(** * Further properties of the code *)

(** ** [VerifyMemberInside] *)

(** X1.  Where the parent range does not wrap around the address space and
    [parent_size] plus each of the three sizes stays below 2^64, the code
    answers "inside" exactly when the four conditions hold; a member that
    lies before its parent is then always outside. *)
Theorem VerifyMemberInside_exact_in_range
        (parent psize member msize off dsize : Z) :
  is_uint64 parent -> is_uint64 member ->
  0 <= psize -> parent + psize < 2 ^ 64 ->
  0 <= msize -> 0 <= off -> 0 <= dsize ->
  psize + msize < 2 ^ 64 -> psize + off < 2 ^ 64 -> psize + dsize < 2 ^ 64 ->
  (VerifyMemberInside parent psize member msize off dsize = 0 <->
   member_inside_spec parent psize member msize off dsize).
Proof.
  intros Hp Hm Hs Hfit Hms Ho Hd B1 B2 B3. split.
  - unfold VerifyMemberInside, member_inside_spec.
    destruct (Z_le_gt_dec parent member) as [Hle|Hgt].
    + rewrite OffsetOf_above by assumption.
      destruct (Z.gtb_spec (member - parent) psize); [discriminate|].
      rewrite (to_uint64_small (member - parent + msize)) by (unfold_uint64; lia).
      destruct (Z.gtb_spec (member - parent + msize) psize); [discriminate|].
      rewrite (to_uint64_small (member - parent + off)) by (unfold_uint64; lia).
      destruct (Z.gtb_spec (member - parent + off) psize); [discriminate|].
      rewrite (to_uint64_small (member - parent + off + dsize)) by (unfold_uint64; lia).
      destruct (Z.gtb_spec (member - parent + off + dsize) psize); [discriminate|].
      intros _. lia.
    + assert (E : OffsetOf parent member = member - parent + 2 ^ 64)
        by (unfold OffsetOf; revert Hp Hm Hgt; solve_uint64).
      rewrite E.
      destruct (Z.gtb_spec (member - parent + 2 ^ 64) psize) as [|Hc]; [discriminate|].
      exfalso. revert Hp Hm Hfit Hc. unfold_uint64. lia.
  - intros H. apply VerifyMemberInside_complete; try assumption.
    unfold is_uint64 in *. change (2 ^ 64) with 18446744073709551616 in *. lia.
Qed.

Lemma VerifyMemberInside_exact_in_range_witness :
  VerifyMemberInside 4096 312 4176 32 32 8 = 0 /\
  member_inside_spec 4096 312 4176 32 32 8.
Proof.
  assert (H : VerifyMemberInside 4096 312 4176 32 32 8 = 0) by (vm_compute; reflexivity).
  split; [exact H|].
  apply (VerifyMemberInside_exact_in_range 4096 312 4176 32 32 8);
    try exact H;
    unfold is_uint64; change (2 ^ 64) with 18446744073709551616; lia.
Defined.

(** X2.  The answer is monotone in the size of the parent: a member that is
    inside a parent of size [psize] is inside every larger parent at the
    same address. *)
Theorem VerifyMemberInside_parent_size_mono
        (parent psize psize' member msize off dsize : Z) :
  psize <= psize' ->
  VerifyMemberInside parent psize member msize off dsize = 0 ->
  VerifyMemberInside parent psize' member msize off dsize = 0.
Proof.
  intros Hle. unfold VerifyMemberInside.
  repeat match goal with
         | |- context [?a >? psize] =>
             destruct (Z.gtb_spec a psize); [discriminate|];
             destruct (Z.gtb_spec a psize'); [lia|]
         end.
  reflexivity.
Qed.

Lemma VerifyMemberInside_parent_size_mono_witness :
  VerifyMemberInside 4096 400 4176 32 32 8 = 0.
Proof.
  apply (VerifyMemberInside_parent_size_mono 4096 312 400 4176 32 32 8).
  - lia.
  - vm_compute; reflexivity.
Defined.

(** X3.  Even where the sums wrap, an answer "inside" bounds the two
    pointers the accessors compute: the member and the start of its
    payload, [member + member_data_offset] taken modulo 2^64, are at an
    offset of at most [parent_size] from the parent.  Nothing is said of
    the ends of the header and of the payload, which can lie outside. *)
Theorem VerifyMemberInside_bounds_pointers
        (parent psize member msize off dsize : Z) :
  is_uint64 parent -> is_uint64 member ->
  VerifyMemberInside parent psize member msize off dsize = 0 ->
  OffsetOf parent member <= psize /\
  OffsetOf parent (to_uint64 (member + off)) <= psize.
Proof.
  intros Hp Hm. unfold VerifyMemberInside.
  assert (E : OffsetOf parent (to_uint64 (member + off))
              = to_uint64 (OffsetOf parent member + off)).
  { unfold OffsetOf. revert Hp Hm. unfold_uint64. intros Hp Hm.
    rewrite (Z.mod_small parent) by lia. rewrite (Z.mod_small member) by lia.
    rewrite Z.mod_mod by lia.
    rewrite Zminus_mod_idemp_l, Zplus_mod_idemp_l. f_equal. lia. }
  rewrite E.
  repeat match goal with
         | |- context [?a >? psize] =>
             destruct (Z.gtb_spec a psize); [discriminate|]
         end.
  intros _. lia.
Qed.

Lemma VerifyMemberInside_bounds_pointers_witness :
  OffsetOf 4096 4106 <= 100 /\
  OffsetOf 4096 (to_uint64 (4106 + (2 ^ 64 - 5))) <= 100.
Proof.
  apply (VerifyMemberInside_bounds_pointers 4096 100 4106 32 (2 ^ 64 - 5) 40).
  - unfold is_uint64; change (2 ^ 64) with 18446744073709551616; lia.
  - unfold is_uint64; change (2 ^ 64) with 18446744073709551616; lia.
  - vm_compute; reflexivity.
Defined.

(** ** [PublicKeyInit] and [PublicKeyToRSA] *)

Lemma OffsetOf_inverse (base ptr : Z) :
  is_uint64 base -> is_uint64 ptr -> to_uint64 (base + OffsetOf base ptr) = ptr.
Proof. unfold OffsetOf; intros; solve_uint64. Qed.

Section KeyHelperFacts.

Variable L : StructLayout.
Variable C : CryptoLib.

Lemma PublicKeyInit_algorithm (m : mem) (key key_data size : Z) :
  0 <= key -> key + sizeof_VbPublicKey <= 2 ^ 64 ->
  algorithm (PublicKeyInit C m key key_data size) key = to_uint64 (kNumAlgorithms C).
Proof.
  intros Hk0 Hk1. unfold PublicKeyInit, algorithm, offsetof_key_offset,
    offsetof_key_size, offsetof_algorithm, offsetof_key_version.
  rewrite !(field_small key) by side_conditions.
  rewrite !load_store_other by side_conditions.
  apply load_store_same. apply to_uint64_range.
Qed.

(** X4.  [PublicKeyInit] followed by the accessors gives back what was
    put in: the payload pointer is [key_data], wherever it lies relative
    to the header, the size is [key_size], the algorithm is the sentinel
    [kNumAlgorithms], the version is 0; and nothing outside the 32 bytes
    of the header is written. *)
Theorem PublicKeyInit_accessors (m : mem) (key key_data size : Z) :
  0 <= key -> key + sizeof_VbPublicKey <= 2 ^ 64 ->
  is_uint64 key_data -> is_uint64 size ->
  let m' := PublicKeyInit C m key key_data size in
  GetPublicKeyData m' key = key_data /\
  key_size m' key = size /\
  algorithm m' key = to_uint64 (kNumAlgorithms C) /\
  key_version m' key = 0 /\
  (forall a, is_uint64 a -> ~ (key <= a < key + sizeof_VbPublicKey) -> m' a = m a).
Proof.
  intros Hk0 Hk1 Hd Hs. cbn zeta.
  unfold PublicKeyInit, GetPublicKeyData, key_offset, key_size, algorithm, key_version,
    offsetof_key_offset, offsetof_key_size, offsetof_algorithm, offsetof_key_version.
  rewrite !(field_small key) by side_conditions.
  rewrite Z.add_0_r.
  assert (Rk : is_uint64 key) by side_conditions.
  repeat split.
  - rewrite !load_store_other by side_conditions.
    rewrite load_store_same by apply to_uint64_range.
    apply OffsetOf_inverse; assumption.
  - rewrite !load_store_other by side_conditions.
    apply load_store_same; assumption.
  - rewrite !load_store_other by side_conditions.
    apply load_store_same. apply to_uint64_range.
  - apply load_store_same. side_conditions.
  - intros a Ha Hout. rewrite !store_outside; try reflexivity; side_conditions.
Qed.

(** X5.  A key that has only been initialised is not usable: its
    algorithm is the sentinel, [PublicKeyToRSA] returns [NULL] for it, and
    [KeyBlockVerify] against it never reaches the RSA primitive: the
    answer is "key block invalid" or "public key invalid". *)
Theorem PublicKeyInit_key_not_present (m : mem) (key key_data size : Z)
        (block bsize : Z) :
  0 < key -> key + sizeof_VbPublicKey <= 2 ^ 64 ->
  let m' := PublicKeyInit C m key key_data size in
  PublicKeyToRSA C m' key = None /\
  trace (KeyBlockVerify L C m' block bsize key) = [] /\
  (result (KeyBlockVerify L C m' block bsize key) = VBOOT_KEY_BLOCK_INVALID \/
   result (KeyBlockVerify L C m' block bsize key) = VBOOT_PUBLIC_KEY_INVALID).
Proof.
  intros Hk0 Hk1 m'.
  assert (Hrsa : PublicKeyToRSA C m' key = None).
  { apply PublicKeyToRSA_bad_algorithm.
    unfold m'. rewrite PublicKeyInit_algorithm by lia. lia. }
  split; [exact Hrsa|].
  unfold KeyBlockVerify. rewrite Hrsa.
  assert (Hkey : (key =? 0) = false) by (apply Z.eqb_neq; lia).
  rewrite Hkey. cbn [negb]. unfold ret, trace, result.
  repeat break_if; cbn [fst snd]; auto.
Qed.

(** X6.  A key that [PublicKeyToRSA] returns has passed both of its
    checks and carries the algorithm of the [VbPublicKey]: with
    [kNumAlgorithms] a non-negative [int], the algorithm of the RSA key is
    the field itself and a valid index of the algorithm tables, and the
    size of the key, as an [int], is the processed length of that
    algorithm. *)
Theorem PublicKeyToRSA_some (m : mem) (key : Z) (rsa : RSAPublicKey) :
  0 <= kNumAlgorithms C < 2 ^ 31 ->
  PublicKeyToRSA C m key = Some rsa ->
  rsa_algorithm rsa = algorithm m key /\
  0 <= rsa_algorithm rsa < kNumAlgorithms C /\
  RSAProcessedKeySize C (rsa_algorithm rsa) = to_int (key_size m key).
Proof.
  intros Hn. unfold PublicKeyToRSA.
  pose proof (load_range m (field key offsetof_algorithm)) as Ra.
  fold (algorithm m key) in Ra.
  destruct (Z.leb_spec (to_uint64 (kNumAlgorithms C)) (algorithm m key)) as [|Hlt];
    [discriminate|].
  assert (En : to_uint64 (kNumAlgorithms C) = kNumAlgorithms C)
    by (apply to_uint64_small; unfold is_uint64;
        change (2 ^ 31) with 2147483648 in Hn;
        change (2 ^ 64) with 18446744073709551616; lia).
  rewrite En in Hlt.
  assert (Ea : to_int (algorithm m key) = algorithm m key)
    by (apply to_int_small; unfold is_uint64 in Ra; lia).
  rewrite Ea.
  destruct (Z.eqb_spec (RSAProcessedKeySize C (algorithm m key)) (to_int (key_size m key)))
    as [Hsz|]; [|discriminate].
  cbn [negb].
  destruct (RSAPublicKeyFromBuf C _ _); [|discriminate].
  intros H. inversion H; subst rsa. cbn [rsa_algorithm].
  unfold is_uint64 in Ra. repeat split; try lia; exact Hsz.
Qed.

End KeyHelperFacts.

Lemma PublicKeyInit_accessors_witness :
  GetPublicKeyData (PublicKeyInit stub_crypto (copy_mem 32 8) BLOCK 100 8) BLOCK = 100 /\
  algorithm (PublicKeyInit stub_crypto (copy_mem 32 8) BLOCK 100 8) BLOCK = 12.
Proof.
  destruct (PublicKeyInit_accessors stub_crypto (copy_mem 32 8) BLOCK 100 8)
    as (H1 & _ & H2 & _);
    try (unfold is_uint64, BLOCK, sizeof_VbPublicKey;
         change (2 ^ 64) with 18446744073709551616; lia).
  split; [exact H1|]. rewrite H2. vm_compute; reflexivity.
Defined.

Lemma PublicKeyInit_key_not_present_witness :
  result (KeyBlockVerify spec_layout stub_crypto
            (PublicKeyInit stub_crypto (key_block_mem 120 8 264) ROOT (ROOT + 32) 264)
            BLOCK 312 ROOT) = VBOOT_PUBLIC_KEY_INVALID.
Proof.
  destruct (PublicKeyInit_key_not_present spec_layout stub_crypto
              (key_block_mem 120 8 264) ROOT (ROOT + 32) 264 BLOCK 312)
    as (_ & _ & [H|H]);
    try (unfold is_uint64, ROOT, sizeof_VbPublicKey;
         change (2 ^ 64) with 18446744073709551616; lia).
  - exfalso. revert H. vm_compute. discriminate.
  - exact H.
Defined.

Lemma PublicKeyToRSA_some_witness :
  PublicKeyToRSA stub_crypto (key_block_mem 120 8 264) ROOT = Some root_rsa /\
  RSAProcessedKeySize stub_crypto (rsa_algorithm root_rsa)
  = to_int (key_size (key_block_mem 120 8 264) ROOT).
Proof.
  assert (H : PublicKeyToRSA stub_crypto (key_block_mem 120 8 264) ROOT = Some root_rsa)
    by (vm_compute; reflexivity).
  split; [exact H|].
  refine (proj2 (proj2 (PublicKeyToRSA_some stub_crypto (key_block_mem 120 8 264)
                          ROOT root_rsa _ H))).
  cbn [kNumAlgorithms stub_crypto]. change (2 ^ 31) with 2147483648. lia.
Defined.

(** ** [PublicKeyCopy] and the other functions *)

Lemma to_int_le (x : Z) : 0 <= x -> to_int x <= x.
Proof.
  intros H. unfold to_int.
  change (2 ^ 31) with 2147483648. change (2 ^ 32) with 4294967296.
  Z.div_mod_to_equations. lia.
Qed.

Lemma firstn_seq_le (k len start : nat) :
  (k <= len)%nat -> firstn k (seq start len) = seq start k.
Proof.
  revert len start. induction k as [|k IH]; intros len start Hle; [reflexivity|].
  destruct len as [|len]; [lia|].
  cbn [seq firstn]. rewrite IH by lia. reflexivity.
Qed.

Lemma read_bytes_prefix (m : mem) (p n n' : Z) :
  n' <= n -> read_bytes m p n' = firstn (Z.to_nat n') (read_bytes m p n).
Proof.
  intros Hle. unfold read_bytes.
  rewrite firstn_map, firstn_seq_le by lia.
  reflexivity.
Qed.

(** X7.  A copied key converts to the same RSA key: after a successful
    [PublicKeyCopy] between keys that are separated in the sense of
    [copy_separated], [PublicKeyToRSA] on the destination gives what it
    gave on the source before the copy. *)
Theorem PublicKeyCopy_preserves_PublicKeyToRSA
        (C : CryptoLib) (m : mem) (dest src : Z) :
  key_size m src <= key_size m dest ->
  copy_separated m dest src ->
  PublicKeyToRSA C (snd (PublicKeyCopy m dest src)) dest = PublicKeyToRSA C m src.
Proof.
  intros Hle Hsep.
  destruct (PublicKeyCopy_success m dest src Hle Hsep)
    as (_ & Hks & Halg & _ & Hpay & _).
  set (m' := snd (PublicKeyCopy m dest src)) in *.
  pose proof (load_range m (field src offsetof_key_size)) as Rs.
  fold (key_size m src) in Rs.
  assert (Hpre : read_bytes m' (GetPublicKeyDataC m' dest) (to_int (key_size m src))
                 = read_bytes m (GetPublicKeyDataC m src) (to_int (key_size m src))).
  { rewrite (read_bytes_prefix m' _ (key_size m src))
      by (apply to_int_le; unfold is_uint64 in Rs; lia).
    rewrite (read_bytes_prefix m _ (key_size m src))
      by (apply to_int_le; unfold is_uint64 in Rs; lia).
    unfold GetPublicKeyDataC. rewrite Hpay. reflexivity. }
  unfold PublicKeyToRSA. rewrite Halg, Hks, Hpre. reflexivity.
Qed.

Lemma PublicKeyCopy_preserves_PublicKeyToRSA_witness :
  PublicKeyToRSA stub_crypto copy_root_mem THIRD = None /\
  PublicKeyToRSA stub_crypto copy_root_mem ROOT = Some root_rsa /\
  PublicKeyToRSA stub_crypto (snd (PublicKeyCopy copy_root_mem THIRD ROOT)) THIRD
  = Some root_rsa.
Proof.
  assert (Hs : PublicKeyToRSA stub_crypto copy_root_mem ROOT = Some root_rsa)
    by (vm_compute; reflexivity).
  split; [vm_compute; reflexivity|]. split; [exact Hs|].
  rewrite (PublicKeyCopy_preserves_PublicKeyToRSA stub_crypto copy_root_mem THIRD ROOT).
  - exact Hs.
  - apply Z.leb_le; vm_compute; reflexivity.
  - assert (Ks : key_size copy_root_mem ROOT = 264) by (vm_compute; reflexivity).
    assert (Pd : GetPublicKeyData copy_root_mem THIRD = THIRD + 32)
      by (vm_compute; reflexivity).
    assert (Ps : GetPublicKeyDataC copy_root_mem ROOT = ROOT + 32)
      by (vm_compute; reflexivity).
    unfold copy_separated. cbn zeta. rewrite Ks, Pd, Ps.
    unfold ranges_apart, sizeof_VbPublicKey, THIRD, ROOT.
    repeat split; right; right; split; apply Z.leb_le; vm_compute; reflexivity.
Defined.

(** X8.  The [key_size] of the destination is both its capacity and,
    after a copy, the size of the key it holds: once a key has been copied
    into it from a source it is separated from, in the sense of
    [copy_separated], a longer key is refused, whatever room the
    destination had before, and the refusal leaves memory as it is.
    Without the separation the first copy can overwrite the [key_size] it
    has just set. *)
Theorem PublicKeyCopy_capacity_shrinks (m : mem) (dest src src2 : Z) :
  key_size m src <= key_size m dest ->
  copy_separated m dest src ->
  let m' := snd (PublicKeyCopy m dest src) in
  key_size m src < key_size m' src2 ->
  PublicKeyCopy m' dest src2 = (1, m').
Proof.
  intros Hle Hsep m' Hlt.
  destruct (PublicKeyCopy_success m dest src Hle Hsep) as (_ & Hks & _).
  fold m' in Hks. apply PublicKeyCopy_error. rewrite Hks. exact Hlt.
Qed.

Lemma PublicKeyCopy_capacity_shrinks_witness :
  fst (PublicKeyCopy copy_mem_three BLOCK THIRD) = 0 /\
  fst (PublicKeyCopy (snd (PublicKeyCopy copy_mem_three BLOCK ROOT)) BLOCK THIRD) = 1.
Proof.
  split; [vm_compute; reflexivity|].
  rewrite (PublicKeyCopy_capacity_shrinks copy_mem_three BLOCK ROOT THIRD).
  - reflexivity.
  - apply Z.leb_le; vm_compute; reflexivity.
  - assert (Ks : key_size copy_mem_three ROOT = 8) by (vm_compute; reflexivity).
    assert (Pd : GetPublicKeyData copy_mem_three BLOCK = BLOCK + 32)
      by (vm_compute; reflexivity).
    assert (Ps : GetPublicKeyDataC copy_mem_three ROOT = ROOT + 32)
      by (vm_compute; reflexivity).
    unfold copy_separated. cbn zeta. rewrite Ks, Pd, Ps.
    unfold ranges_apart, sizeof_VbPublicKey, BLOCK, ROOT.
    repeat split; right; right; split; apply Z.leb_le; vm_compute; reflexivity.
  - apply Z.ltb_lt; vm_compute; reflexivity.
Defined.

(** ** The verifiers: rejections, buffer length, return codes *)

Section MoreVerifierFacts.

Variable L : StructLayout.
Variable C : CryptoLib.

(** X9.  A buffer shorter than the size the object declares is rejected as
    invalid by each verifier, and no cryptographic primitive is called. *)
Theorem truncated_buffer_rejected (m : mem) (b size key : Z) (rsa : RSAPublicKey) :
  (size < key_block_size L m b ->
   KeyBlockVerify L C m b size key = (VBOOT_KEY_BLOCK_INVALID, [])) /\
  (size < fp_size L m b ->
   VerifyFirmwarePreamble L C m b size rsa = (VBOOT_PREAMBLE_INVALID, [])) /\
  (size < kp_size L m b ->
   VerifyKernelPreamble L C m b size rsa = (VBOOT_PREAMBLE_INVALID, [])).
Proof.
  split; [|split]; intros Hlt.
  - unfold KeyBlockVerify.
    destruct (Z.ltb_spec size (key_block_size L m b)); [|lia].
    repeat break_if; reflexivity.
  - unfold VerifyFirmwarePreamble.
    destruct (Z.ltb_spec size (fp_size L m b)); [|lia].
    repeat break_if; reflexivity.
  - unfold VerifyKernelPreamble.
    destruct (Z.ltb_spec size (kp_size L m b)); [|lia].
    repeat break_if; reflexivity.
Qed.

Lemma VerifyData_size_irrelevant (m : mem) (data n n' sig : Z) (key : RSAPublicKey) :
  data_size m sig <= n -> data_size m sig <= n' ->
  VerifyData C m data n sig key = VerifyData C m data n' sig key.
Proof.
  intros H1 H2. unfold VerifyData.
  destruct (Z.gtb_spec (data_size m sig) n); [lia|].
  destruct (Z.gtb_spec (data_size m sig) n'); [lia|].
  reflexivity.
Qed.

(** X10.  Once the buffer is at least as long as the declared size, the
    outcome of [KeyBlockVerify] and of [VerifyFirmwarePreamble], verdict
    and primitive calls alike, does not depend on the length of the
    buffer: both compare [data_size] with the declared size first, so
    that the length test of [VerifyData] cannot fail in them.
    [VerifyKernelPreamble] is independent of the length only among the
    lengths that cover [data_size]. *)
Theorem buffer_length_irrelevant (m : mem) (b n n' : Z) :
  (forall key,
      key_block_size L m b <= n -> key_block_size L m b <= n' ->
      KeyBlockVerify L C m b n key = KeyBlockVerify L C m b n' key) /\
  (forall key,
      fp_size L m b <= n -> fp_size L m b <= n' ->
      VerifyFirmwarePreamble L C m b n key = VerifyFirmwarePreamble L C m b n' key) /\
  (forall key,
      kp_size L m b <= n -> kp_size L m b <= n' ->
      data_size m (field b (kp_preamble_signature L)) <= n ->
      data_size m (field b (kp_preamble_signature L)) <= n' ->
      VerifyKernelPreamble L C m b n key = VerifyKernelPreamble L C m b n' key).
Proof.
  split; [|split]; intros key H1 H2.
  - unfold KeyBlockVerify.
    destruct (Z.ltb_spec n (key_block_size L m b)); [lia|].
    destruct (Z.ltb_spec n' (key_block_size L m b)); [lia|].
    repeat break_if; try reflexivity;
      (destruct (PublicKeyToRSA C m key); [|reflexivity]);
      bool_facts;
      rewrite (VerifyData_size_irrelevant m b n n') by lia; reflexivity.
  - unfold VerifyFirmwarePreamble. cbn zeta.
    destruct (Z.ltb_spec n (fp_size L m b)); [lia|].
    destruct (Z.ltb_spec n' (fp_size L m b)); [lia|].
    repeat break_if; try reflexivity;
      bool_facts;
      rewrite (VerifyData_size_irrelevant m b n n') by lia; reflexivity.
  - intros H3 H4. unfold VerifyKernelPreamble. cbn zeta.
    destruct (Z.ltb_spec n (kp_size L m b)); [lia|].
    destruct (Z.ltb_spec n' (kp_size L m b)); [lia|].
    repeat break_if; try reflexivity;
      rewrite (VerifyData_size_irrelevant m b n n') by lia; reflexivity.
Qed.

(** X11.  Return codes.  [KeyBlockVerify] answers with one of the five
    key-block codes; without a root key it never answers "signature
    failed" or "public key invalid", with one it never answers "hash
    failed".  The preamble verifiers answer success, "preamble invalid" or
    "preamble signature failed", and nothing else. *)
Theorem verifier_return_codes (m : mem) (b size key : Z) (rsa : RSAPublicKey) :
  (let r := result (KeyBlockVerify L C m b size key) in
   (r = VBOOT_SUCCESS \/ r = VBOOT_KEY_BLOCK_INVALID \/ r = VBOOT_KEY_BLOCK_SIGNATURE \/
    r = VBOOT_KEY_BLOCK_HASH \/ r = VBOOT_PUBLIC_KEY_INVALID) /\
   (key = 0 -> r <> VBOOT_KEY_BLOCK_SIGNATURE /\ r <> VBOOT_PUBLIC_KEY_INVALID) /\
   (key <> 0 -> r <> VBOOT_KEY_BLOCK_HASH)) /\
  (let r := result (VerifyFirmwarePreamble L C m b size rsa) in
   r = VBOOT_SUCCESS \/ r = VBOOT_PREAMBLE_INVALID \/ r = VBOOT_PREAMBLE_SIGNATURE) /\
  (let r := result (VerifyKernelPreamble L C m b size rsa) in
   r = VBOOT_SUCCESS \/ r = VBOOT_PREAMBLE_INVALID \/ r = VBOOT_PREAMBLE_SIGNATURE).
Proof.
  split; [|split]; cbn zeta.
  - unfold KeyBlockVerify, KeyBlockVerify_signed, bind, call, ret, result.
    destruct (Z.eqb_spec key 0) as [Hk|Hk]; cbn [negb].
    + repeat break_if; cbn [fst]; repeat split; auto 6; try discriminate; contradiction.
    + destruct (PublicKeyToRSA C m key) as [k|];
        [destruct (VerifyData C m b size (field b (kb_key_block_signature L)) k)|];
        repeat break_if; cbn [fst]; repeat split; auto 6; try discriminate; contradiction.
  - unfold VerifyFirmwarePreamble, bind, ret, result.
    destruct (VerifyData C m b size (field b (fp_preamble_signature L)) rsa).
    repeat break_if; cbn [fst]; auto.
  - unfold VerifyKernelPreamble, bind, ret, result.
    destruct (VerifyData C m b size (field b (kp_preamble_signature L)) rsa).
    repeat break_if; cbn [fst]; auto.
Qed.

(** ** Acceptance and the cryptographic primitive *)

Lemma VerifyData_ok_run (m : mem) (data size sig : Z) (key : RSAPublicKey) :
  result (VerifyData C m data size sig key) = 0 ->
  VerifyData C m data size sig key =
    (0, [EvRSAVerifyBinary data (data_size m sig) (GetSignatureDataC m sig)
                           (rsa_algorithm key)]).
Proof.
  unfold VerifyData, bind, call, ret, result.
  repeat break_if; cbn [fst]; intros H; try discriminate; reflexivity.
Qed.

(** X12.  No key block is accepted without its cryptographic check.  An
    accepted key block has caused exactly one primitive call, which
    succeeded: without a root key, [DigestBuf] over the [data_size] bytes
    at the block, whose result equals the checksum payload; with a root
    key, [RSAVerifyBinary_f] with the key [PublicKeyToRSA] made of it, over
    the [data_size] bytes at the block and the payload of the signature,
    whose size is the signature length of the key's algorithm. *)
Theorem KeyBlockVerify_accepts_after_crypto (m : mem) (block size key : Z) :
  result (KeyBlockVerify L C m block size key) = VBOOT_SUCCESS ->
  (key = 0 ->
   let sig := field block (kb_key_block_checksum L) in
   trace (KeyBlockVerify L C m block size key) =
     [EvDigestBuf block (data_size m sig) (SHA512_DIGEST_ALGORITHM C)] /\
   checksum_matches L C m block) /\
  (key <> 0 ->
   let sig := field block (kb_key_block_signature L) in
   exists rsa,
     PublicKeyToRSA C m key = Some rsa /\
     trace (KeyBlockVerify L C m block size key) =
       [EvRSAVerifyBinary block (data_size m sig) (GetSignatureDataC m sig)
                          (rsa_algorithm rsa)] /\
     rsa_verdict C m block sig rsa <> 0 /\
     sig_size m sig = to_uint64 (siglen_map C (rsa_algorithm rsa))).
Proof.
  intros Hok. split; intros Hk; cbn zeta.
  - subst key. pose proof Hok as Hiff.
    apply KeyBlockVerify_hash_ok_iff in Hiff. cbn zeta in Hiff.
    destruct Hiff as ((Hmg & Hv & Hs) & Hin & Hsz & Hm & _).
    split; [|exact Hm].
    unfold KeyBlockVerify.
    rewrite Hmg, Hv, Hin, Hsz, !Z.eqb_refl. cbn [Z.eqb negb].
    destruct (Z.ltb_spec size (key_block_size L m block)); [lia|].
    unfold bind, call, ret, trace. break_if; reflexivity.
  - pose proof Hok as Hiff.
    apply KeyBlockVerify_keyed_ok_iff in Hiff; [|exact Hk]. cbn zeta in Hiff.
    destruct Hiff as ((Hmg & Hv & Hs) & Hin & rsa & Hr & Hd & Hvd & Hsg).
    exists rsa. split; [exact Hr|].
    pose proof (VerifyData_ok_run _ _ _ _ _ Hvd) as Hrun.
    apply VerifyData_ok_iff in Hvd. destruct Hvd as (Hlen & _ & Hverdict).
    split; [|split; assumption].
    unfold KeyBlockVerify. apply Z.eqb_neq in Hk.
    rewrite Hmg, Hv, Hin, Hk, !Z.eqb_refl. cbn [Z.eqb negb].
    rewrite Hr, Hrun.
    destruct (Z.ltb_spec size (key_block_size L m block)); [lia|].
    destruct (Z.ltb_spec (key_block_size L m block)
                (data_size m (field block (kb_key_block_signature L)))); [lia|].
    reflexivity.
Qed.

(** X13.  No preamble is accepted without the RSA check of its signature:
    an accepted firmware or kernel preamble has caused exactly one call of
    [RSAVerifyBinary_f], with the key of the caller, over the [data_size]
    bytes at the preamble and the payload of [preamble_signature], and the
    call succeeded. *)
Theorem preamble_accepts_after_crypto (m : mem) (preamble size : Z) (key : RSAPublicKey) :
  (result (VerifyFirmwarePreamble L C m preamble size key) = VBOOT_SUCCESS ->
   let sig := field preamble (fp_preamble_signature L) in
   trace (VerifyFirmwarePreamble L C m preamble size key) =
     [EvRSAVerifyBinary preamble (data_size m sig) (GetSignatureDataC m sig)
                        (rsa_algorithm key)] /\
   rsa_verdict C m preamble sig key <> 0 /\
   sig_size m sig = to_uint64 (siglen_map C (rsa_algorithm key))) /\
  (result (VerifyKernelPreamble L C m preamble size key) = VBOOT_SUCCESS ->
   let sig := field preamble (kp_preamble_signature L) in
   trace (VerifyKernelPreamble L C m preamble size key) =
     [EvRSAVerifyBinary preamble (data_size m sig) (GetSignatureDataC m sig)
                        (rsa_algorithm key)] /\
   rsa_verdict C m preamble sig key <> 0 /\
   sig_size m sig = to_uint64 (siglen_map C (rsa_algorithm key))).
Proof.
  split; intros Hok; cbn zeta.
  - pose proof Hok as Hiff.
    apply VerifyFirmwarePreamble_ok_iff in Hiff. cbn zeta in Hiff.
    destruct Hiff as (_ & _ & _ & _ & Hvd & _).
    pose proof (VerifyData_ok_run _ _ _ _ _ Hvd) as Hrun.
    apply VerifyData_ok_iff in Hvd. destruct Hvd as (Hlen & _ & Hverdict).
    split; [|split; assumption].
    revert Hok. unfold VerifyFirmwarePreamble. cbn zeta. rewrite Hrun.
    unfold bind, ret, result, trace.
    repeat break_if; cbn [fst snd app]; intros H; try discriminate; reflexivity.
  - pose proof Hok as Hiff.
    apply VerifyKernelPreamble_ok_iff in Hiff. cbn zeta in Hiff.
    destruct Hiff as (_ & _ & _ & Hvd & _).
    pose proof (VerifyData_ok_run _ _ _ _ _ Hvd) as Hrun.
    apply VerifyData_ok_iff in Hvd. destruct Hvd as (Hlen & _ & Hverdict).
    split; [|split; assumption].
    revert Hok. unfold VerifyKernelPreamble. cbn zeta. rewrite Hrun.
    unfold bind, ret, result, trace.
    repeat break_if; cbn [fst snd app]; intros H; try discriminate; reflexivity.
Qed.

(** X14.  A signature whose [sig_size] is not the signature length of the
    key's algorithm is reported as a signature failure, not as an invalid
    object, and the RSA primitive is not called for it. *)
Theorem wrong_signature_length_is_signature_failure
        (m : mem) (b size key : Z) (rsa : RSAPublicKey) :
  (let sig := field b (kb_key_block_signature L) in
   key <> 0 ->
   key_block_header_ok L m b size ->
   VerifySignatureInside m b (key_block_size L m b) sig = 0 ->
   PublicKeyToRSA C m key = Some rsa ->
   data_size m sig <= key_block_size L m b ->
   sig_size m sig <> to_uint64 (siglen_map C (rsa_algorithm rsa)) ->
   KeyBlockVerify L C m b size key = (VBOOT_KEY_BLOCK_SIGNATURE, [])) /\
  (let sig := field b (fp_preamble_signature L) in
   fp_major L m b = FIRMWARE_PREAMBLE_HEADER_VERSION_MAJOR L ->
   fp_size L m b <= size ->
   VerifySignatureInside m b (fp_size L m b) sig = 0 ->
   data_size m sig <= fp_size L m b ->
   sig_size m sig <> to_uint64 (siglen_map C (rsa_algorithm rsa)) ->
   VerifyFirmwarePreamble L C m b size rsa = (VBOOT_PREAMBLE_SIGNATURE, [])) /\
  (let sig := field b (kp_preamble_signature L) in
   kp_major L m b = KERNEL_PREAMBLE_HEADER_VERSION_MAJOR L ->
   kp_size L m b <= size ->
   VerifySignatureInside m b (kp_size L m b) sig = 0 ->
   sig_size m sig <> to_uint64 (siglen_map C (rsa_algorithm rsa)) ->
   VerifyKernelPreamble L C m b size rsa = (VBOOT_PREAMBLE_SIGNATURE, [])).
Proof.
  split; [|split]; cbn zeta.
  - intros Hk (Hmg & Hv & Hs) Hin Hr Hd Hlen.
    unfold KeyBlockVerify. apply Z.eqb_neq in Hk, Hlen.
    rewrite Hmg, Hv, Hin, Hk, !Z.eqb_refl. cbn [Z.eqb negb]. rewrite Hr.
    unfold VerifyData. rewrite Hlen. cbn [negb].
    destruct (Z.ltb_spec size (key_block_size L m b)); [lia|].
    destruct (Z.ltb_spec (key_block_size L m b)
                (data_size m (field b (kb_key_block_signature L)))); [lia|].
    reflexivity.
  - intros Hv Hs Hin Hd Hlen.
    unfold VerifyFirmwarePreamble, VerifyData. cbn zeta. apply Z.eqb_neq in Hlen.
    rewrite Hv, Hin, Hlen, !Z.eqb_refl. cbn [Z.eqb negb].
    destruct (Z.ltb_spec size (fp_size L m b)); [lia|].
    destruct (Z.ltb_spec (fp_size L m b)
                (data_size m (field b (fp_preamble_signature L)))); [lia|].
    reflexivity.
  - intros Hv Hs Hin Hlen.
    unfold VerifyKernelPreamble, VerifyData. cbn zeta. apply Z.eqb_neq in Hlen.
    rewrite Hv, Hin, Hlen, !Z.eqb_refl. cbn [Z.eqb negb].
    destruct (Z.ltb_spec size (kp_size L m b)); [lia|].
    reflexivity.
Qed.

(** ** Sizes and bounds of an accepted object *)

Lemma VerifyMemberInside_header (parent psize off msize o d : Z) :
  is_uint64 parent -> 0 <= off -> 0 <= msize -> off + msize < 2 ^ 64 ->
  VerifyMemberInside parent psize (field parent off) msize o d = 0 ->
  off + msize <= psize.
Proof.
  intros Hp Ho Hm Hfit. unfold VerifyMemberInside.
  rewrite OffsetOf_field by (unfold is_uint64 in *; lia).
  rewrite (to_uint64_small (off + msize)) by (unfold_uint64; lia).
  repeat match goal with
         | |- context [?a >? psize] => destruct (Z.gtb_spec a psize); [discriminate|]
         end.
  intros _. lia.
Qed.

Lemma member_contained (parent psize off msize o d : Z) :
  is_uint64 parent -> 0 <= msize -> 0 <= o -> 0 <= d ->
  sub_object_in_range parent off msize o d ->
  VerifyMemberInside parent psize (field parent off) msize o d = 0 ->
  member_inside_spec parent psize (field parent off) msize o d.
Proof.
  intros Hp Hm Ho Hd (H0 & H1 & H2 & H3) Hv.
  assert (Ef : field parent off = parent + off)
    by (apply field_small; unfold is_uint64 in Hp; lia).
  rewrite Ef in *.
  apply VerifyMemberInside_sound_nowrap; try assumption;
    unfold is_uint64 in *; lia.
Qed.

(** X15.  Sizes of an accepted key block.  The signed prefix covers the
    header of the key block and the header of the data key; the declared
    size covers the header of the data key and fits the buffer; with a
    root key the signed prefix lies within the declared size. *)
Theorem accepted_key_block_sizes (m : mem) (block size key : Z) :
  let sig := if key =? 0 then field block (kb_key_block_checksum L)
             else field block (kb_key_block_signature L) in
  is_uint64 block -> 0 <= kb_data_key L ->
  kb_data_key L + sizeof_VbPublicKey < 2 ^ 64 ->
  result (KeyBlockVerify L C m block size key) = VBOOT_SUCCESS ->
  sizeof_VbKeyBlockHeader L <= data_size m sig /\
  kb_data_key L + sizeof_VbPublicKey <= data_size m sig /\
  kb_data_key L + sizeof_VbPublicKey <= key_block_size L m block /\
  key_block_size L m block <= size /\
  (key <> 0 -> data_size m sig <= key_block_size L m block).
Proof.
  intros sig Hb Ho Hfit Hok.
  destruct (KeyBlockVerify_ok_signed L C m block size key Hok) as (Hs & Hi1 & Hi2).
  fold sig in Hs, Hi2.
  unfold VerifyPublicKeyInside in Hi1, Hi2.
  apply VerifyMemberInside_header in Hi1; try assumption; [|unfold sizeof_VbPublicKey; lia].
  apply VerifyMemberInside_header in Hi2; try assumption; [|unfold sizeof_VbPublicKey; lia].
  repeat split; try assumption.
  - destruct (Z.eq_dec key 0) as [->|Hk].
    + apply KeyBlockVerify_hash_ok_iff in Hok. cbn zeta in Hok.
      destruct Hok as ((_ & _ & H) & _). exact H.
    + apply KeyBlockVerify_keyed_ok_iff in Hok; [|exact Hk]. cbn zeta in Hok.
      destruct Hok as ((_ & _ & H) & _). exact H.
  - intros Hk. apply KeyBlockVerify_keyed_ok_iff in Hok; [|exact Hk]. cbn zeta in Hok.
    destruct Hok as (_ & _ & rsa & _ & H & _).
    unfold sig. apply Z.eqb_neq in Hk. rewrite Hk. exact H.
Qed.

(** X16.  Sizes of an accepted preamble.  For the firmware preamble:
    [sizeof(header) <= data_size <= preamble_size <= size].  For the kernel
    preamble: [sizeof(header) <= data_size <= size] and
    [preamble_size <= size].  In both the headers of the sub-objects lie
    within [preamble_size]. *)
Theorem accepted_preamble_sizes (m : mem) (preamble size : Z) (key : RSAPublicKey) :
  is_uint64 preamble ->
  (let sig := field preamble (fp_preamble_signature L) in
   0 <= fp_preamble_signature L < 2 ^ 63 ->
   0 <= fp_body_signature L < 2 ^ 63 ->
   0 <= fp_kernel_subkey L < 2 ^ 63 ->
   result (VerifyFirmwarePreamble L C m preamble size key) = VBOOT_SUCCESS ->
   sizeof_VbFirmwarePreambleHeader L <= data_size m sig /\
   data_size m sig <= fp_size L m preamble /\
   fp_size L m preamble <= size /\
   fp_preamble_signature L + sizeof_VbSignature <= fp_size L m preamble /\
   fp_body_signature L + sizeof_VbSignature <= fp_size L m preamble /\
   fp_kernel_subkey L + sizeof_VbPublicKey <= fp_size L m preamble) /\
  (let sig := field preamble (kp_preamble_signature L) in
   0 <= kp_preamble_signature L < 2 ^ 63 ->
   0 <= kp_body_signature L < 2 ^ 63 ->
   result (VerifyKernelPreamble L C m preamble size key) = VBOOT_SUCCESS ->
   sizeof_VbKernelPreambleHeader L <= data_size m sig /\
   data_size m sig <= size /\
   kp_size L m preamble <= size /\
   kp_preamble_signature L + sizeof_VbSignature <= kp_size L m preamble /\
   kp_body_signature L + sizeof_VbSignature <= kp_size L m preamble).
Proof.
  intros Hp. split; cbn zeta.
  - intros O1 O2 O3 Hok.
    apply VerifyFirmwarePreamble_ok_iff in Hok. cbn zeta in Hok.
    destruct Hok as (_ & Hs & Hi1 & Hd & _ & Hh & Hi2 & Hi3).
    unfold VerifySignatureInside, VerifyPublicKeyInside in Hi1, Hi2, Hi3.
    change (2 ^ 63) with 9223372036854775808 in *.
    apply VerifyMemberInside_header in Hi1; try assumption;
      unfold sizeof_VbSignature in *; change (2 ^ 64) with 18446744073709551616; try lia.
    apply VerifyMemberInside_header in Hi2; try assumption;
      unfold sizeof_VbSignature in *; change (2 ^ 64) with 18446744073709551616; try lia.
    apply VerifyMemberInside_header in Hi3; try assumption;
      unfold sizeof_VbPublicKey in *; change (2 ^ 64) with 18446744073709551616; try lia.
  - intros O1 O2 Hok.
    apply VerifyKernelPreamble_ok_iff in Hok. cbn zeta in Hok.
    destruct Hok as (_ & Hs & Hi1 & Hvd & Hh & Hi2).
    apply VerifyData_ok_iff in Hvd. destruct Hvd as (_ & Hd & _).
    unfold VerifySignatureInside in Hi1, Hi2.
    change (2 ^ 63) with 9223372036854775808 in *.
    apply VerifyMemberInside_header in Hi1; try assumption;
      unfold sizeof_VbSignature in *; change (2 ^ 64) with 18446744073709551616; try lia.
    apply VerifyMemberInside_header in Hi2; try assumption;
      unfold sizeof_VbSignature in *; change (2 ^ 64) with 18446744073709551616; try lia.
Qed.

(** X17.  Bounds closure of an accepted firmware preamble, where the
    sub-objects are described without wrap-around: the preamble signature,
    the body signature and the kernel subkey, header and payload, lie
    inside the first [preamble_size] bytes, hence inside the buffer. *)
Theorem accepted_firmware_preamble_contained
        (m : mem) (preamble size : Z) (key : RSAPublicKey) :
  let sig := field preamble (fp_preamble_signature L) in
  let body := field preamble (fp_body_signature L) in
  let subkey := field preamble (fp_kernel_subkey L) in
  is_uint64 preamble ->
  sub_object_in_range preamble (fp_preamble_signature L) sizeof_VbSignature
    (sig_offset m sig) (sig_size m sig) ->
  sub_object_in_range preamble (fp_body_signature L) sizeof_VbSignature
    (sig_offset m body) (sig_size m body) ->
  sub_object_in_range preamble (fp_kernel_subkey L) sizeof_VbPublicKey
    (key_offset m subkey) (key_size m subkey) ->
  result (VerifyFirmwarePreamble L C m preamble size key) = VBOOT_SUCCESS ->
  fp_size L m preamble <= size /\
  member_inside_spec preamble (fp_size L m preamble) sig sizeof_VbSignature
    (sig_offset m sig) (sig_size m sig) /\
  member_inside_spec preamble (fp_size L m preamble) body sizeof_VbSignature
    (sig_offset m body) (sig_size m body) /\
  member_inside_spec preamble (fp_size L m preamble) subkey sizeof_VbPublicKey
    (key_offset m subkey) (key_size m subkey).
Proof.
  intros sig body subkey Hp R1 R2 R3 Hok.
  apply VerifyFirmwarePreamble_ok_iff in Hok. cbn zeta in Hok.
  destruct Hok as (_ & Hs & Hi1 & _ & _ & _ & Hi2 & Hi3).
  pose proof (load_range m (field sig 0)) as A1.
  pose proof (load_range m (field sig 8)) as A2.
  pose proof (load_range m (field body 0)) as A3.
  pose proof (load_range m (field body 8)) as A4.
  pose proof (load_range m (field subkey offsetof_key_offset)) as A5.
  pose proof (load_range m (field subkey offsetof_key_size)) as A6.
  unfold is_uint64 in A1, A2, A3, A4, A5, A6.
  split; [exact Hs|].
  split; [|split]; apply member_contained; try assumption;
    unfold sizeof_VbSignature, sizeof_VbPublicKey,
      sig_offset, sig_size, key_offset, key_size; lia.
Qed.

(** ** [ReChecksumKeyBlock] and hash-mode verification *)

(** X18.  Re-checksum, then verify.  Where the payload of the checksum
    lies apart from the bytes that are hashed and from the header of the
    checksum, and the digest has its [SHA512_DIGEST_SIZE] bytes,
    [ReChecksumKeyBlock] writes the payload and nothing else, the
    checksum of the resulting key block matches, and [KeyBlockVerify]
    without a root key never answers "hash failed" for it. *)
Theorem ReChecksumKeyBlock_then_verify (m : mem) (h size : Z) :
  let sig := field h (kb_key_block_checksum L) in
  let p := GetSignatureData m sig in
  let d := data_size m sig in
  (Z.to_nat SHA512_DIGEST_SIZE
   <= length (DigestBuf C (read_bytes m h d) d (SHA512_DIGEST_ALGORITHM C)))%nat ->
  0 <= h -> h + d <= 2 ^ 64 ->
  sig + sizeof_VbSignature <= 2 ^ 64 ->
  p + SHA512_DIGEST_SIZE <= 2 ^ 64 ->
  ranges_disjoint p SHA512_DIGEST_SIZE h d ->
  ranges_disjoint p SHA512_DIGEST_SIZE sig sizeof_VbSignature ->
  let m' := ReChecksumKeyBlock L C m h in
  checksum_matches L C m' h /\
  result (KeyBlockVerify L C m' h size 0) <> VBOOT_KEY_BLOCK_HASH /\
  (forall a, is_uint64 a -> ~ (p <= a < p + SHA512_DIGEST_SIZE) -> m' a = m a).
Proof.
  intros sig p d Hlen Hh0 Hh1 Hs1 Hp1 Dd Ds m'.
  set (digest := DigestBuf C (read_bytes m h d) d (SHA512_DIGEST_ALGORITHM C)) in *.
  set (bs := firstn (Z.to_nat SHA512_DIGEST_SIZE) digest).
  assert (Em : m' = write_bytes m p bs) by reflexivity.
  assert (Lbs : Z.of_nat (length bs) = 64).
  { unfold bs. rewrite length_firstn.
    change (Z.to_nat SHA512_DIGEST_SIZE) with 64%nat in *. lia. }
  assert (Rs : is_uint64 sig) by apply to_uint64_range.
  assert (Rp : is_uint64 p) by apply to_uint64_range.
  unfold SHA512_DIGEST_SIZE, sizeof_VbSignature in Hp1, Hs1, Dd, Ds.
  assert (Frame : forall q n, 0 <= q -> sig <= q -> q + n <= sig + 24 -> 0 <= n ->
                              read_bytes m' q n = read_bytes m q n).
  { intros q n Hq0 Hq1 Hq2 Hn. rewrite Em.
    apply read_write_other; rewrite ?Lbs; side_conditions. }
  assert (Eoff : sig_offset m' sig = sig_offset m sig).
  { unfold sig_offset, load. rewrite (field_small sig 0) by side_conditions.
    rewrite Frame by (unfold is_uint64 in Rs; lia). reflexivity. }
  assert (Edata : data_size m' sig = d).
  { unfold d, data_size, load. rewrite (field_small sig 16) by side_conditions.
    rewrite Frame by (unfold is_uint64 in Rs; lia). reflexivity. }
  assert (Ep : GetSignatureDataC m' sig = p).
  { unfold GetSignatureDataC, GetSignatureData, p. rewrite Eoff. reflexivity. }
  assert (Esigned : read_bytes m' h d = read_bytes m h d).
  { rewrite Em. apply read_write_other; rewrite ?Lbs; side_conditions. }
  assert (Epay : read_bytes m' p SHA512_DIGEST_SIZE = bs).
  { rewrite Em. change SHA512_DIGEST_SIZE with 64. rewrite <- Lbs.
    apply read_write_same. rewrite Lbs. change (2 ^ 64) with 18446744073709551616. lia. }
  assert (Hmatch : checksum_matches L C m' h).
  { unfold checksum_matches. cbn zeta. fold sig.
    rewrite Ep, Edata, Esigned, Epay. fold digest.
    unfold SafeMemcmp, bs. rewrite firstn_firstn, Nat.min_id.
    destruct (list_eq_dec _ _ _); [reflexivity|contradiction]. }
  split; [exact Hmatch|]. split.
  - unfold checksum_matches in Hmatch. cbn zeta in Hmatch.
    unfold KeyBlockVerify, KeyBlockVerify_signed. cbn [Z.eqb negb].
    unfold bind, call, ret, result. rewrite Hmatch. cbn [Z.eqb negb].
    repeat break_if; cbn [fst]; discriminate.
  - intros a Ha Hout. rewrite Em.
    apply write_bytes_outside; rewrite ?Lbs; try assumption;
      unfold SHA512_DIGEST_SIZE, is_uint64 in *;
      change (2 ^ 64) with 18446744073709551616 in *; lia.
Qed.

End MoreVerifierFacts.

(** ** Runs of the further properties on explicit inputs *)

(** Decides a closed arithmetic side condition by evaluation. *)
Ltac closed :=
  lazymatch goal with
  | |- _ /\ _ => split; closed
  | |- _ \/ _ => (left; closed) || (right; closed)
  | |- is_uint64 _ => unfold is_uint64; closed
  | |- ranges_disjoint _ _ _ _ => unfold ranges_disjoint; closed
  | |- sub_object_in_range _ _ _ _ _ => unfold sub_object_in_range; closed
  | |- (_ <= _)%nat => apply Nat.leb_le; vm_compute; reflexivity
  | |- _ <= _ => apply Z.leb_le; vm_compute; reflexivity
  | |- _ < _ => apply Z.ltb_lt; vm_compute; reflexivity
  | |- _ = _ => vm_compute; reflexivity
  | |- _ <> _ => vm_compute; discriminate
  end.

Lemma truncated_buffer_rejected_witness :
  KeyBlockVerify spec_layout stub_crypto (key_block_mem 120 8 264) BLOCK 311 ROOT
  = (VBOOT_KEY_BLOCK_INVALID, []).
Proof.
  apply (proj1 (truncated_buffer_rejected spec_layout stub_crypto
                  (key_block_mem 120 8 264) BLOCK 311 ROOT root_rsa)).
  closed.
Defined.

Lemma buffer_length_irrelevant_witness :
  KeyBlockVerify spec_layout stub_crypto tampered_key_block_mem BLOCK 312 ROOT
  = KeyBlockVerify spec_layout stub_crypto tampered_key_block_mem BLOCK 100000 ROOT /\
  result (KeyBlockVerify spec_layout stub_crypto tampered_key_block_mem BLOCK 312 ROOT)
  = VBOOT_KEY_BLOCK_SIGNATURE.
Proof.
  split; [|closed].
  apply (proj1 (buffer_length_irrelevant spec_layout stub_crypto
                  tampered_key_block_mem BLOCK 312 100000)); closed.
Defined.

Lemma verifier_return_codes_witness :
  result (KeyBlockVerify spec_layout stub_crypto tampered_key_block_mem BLOCK 312 0)
  <> VBOOT_KEY_BLOCK_SIGNATURE /\
  result (KeyBlockVerify spec_layout stub_crypto tampered_key_block_mem BLOCK 312 ROOT)
  <> VBOOT_KEY_BLOCK_HASH.
Proof.
  split.
  - apply (proj1 (proj2 (proj1 (verifier_return_codes spec_layout stub_crypto
             tampered_key_block_mem BLOCK 312 0 root_rsa)))).
    reflexivity.
  - apply (proj2 (proj2 (proj1 (verifier_return_codes spec_layout stub_crypto
             tampered_key_block_mem BLOCK 312 ROOT root_rsa)))).
    closed.
Defined.

Lemma KeyBlockVerify_accepts_after_crypto_witness :
  checksum_matches spec_layout stub_crypto (key_block_mem 120 8 264) BLOCK /\
  exists rsa,
    PublicKeyToRSA stub_crypto (key_block_mem 120 8 264) ROOT = Some rsa /\
    rsa_verdict stub_crypto (key_block_mem 120 8 264) BLOCK
      (field BLOCK (kb_key_block_signature spec_layout)) rsa <> 0.
Proof.
  split.
  - apply (proj1 (KeyBlockVerify_accepts_after_crypto spec_layout stub_crypto
                    (key_block_mem 120 8 264) BLOCK 312 0 ltac:(closed))).
    reflexivity.
  - destruct (proj2 (KeyBlockVerify_accepts_after_crypto spec_layout stub_crypto
                       (key_block_mem 120 8 264) BLOCK 312 ROOT ltac:(closed)))
      as (rsa & Hr & _ & Hv & _); [closed|].
    exists rsa. split; assumption.
Defined.

Lemma preamble_accepts_after_crypto_witness :
  trace (VerifyFirmwarePreamble spec_layout stub_crypto firmware_preamble_mem
           BLOCK 256 root_rsa)
  = [EvRSAVerifyBinary BLOCK 112 4208 0] /\
  rsa_verdict stub_crypto (kernel_preamble_mem 240 (pad 16 5)) BLOCK
    (field BLOCK (kp_preamble_signature spec_layout)) root_rsa <> 0.
Proof.
  split.
  - destruct (proj1 (preamble_accepts_after_crypto spec_layout stub_crypto
                       firmware_preamble_mem BLOCK 256 root_rsa)) as (Ht & _); [closed|].
    rewrite Ht. closed.
  - destruct (proj2 (preamble_accepts_after_crypto spec_layout stub_crypto
                       (kernel_preamble_mem 240 (pad 16 5)) BLOCK 256 root_rsa))
      as (_ & Hv & _); [closed|].
    exact Hv.
Defined.

Lemma wrong_signature_length_is_signature_failure_witness :
  VerifyFirmwarePreamble spec_layout stub_crypto firmware_preamble_mem
    BLOCK 256 root_rsa_2048 = (VBOOT_PREAMBLE_SIGNATURE, []).
Proof.
  apply (proj1 (proj2 (wrong_signature_length_is_signature_failure spec_layout
                         stub_crypto firmware_preamble_mem BLOCK 256 0 root_rsa_2048)));
    closed.
Defined.

Lemma accepted_key_block_sizes_witness :
  112 <= data_size (key_block_mem 120 8 264)
           (field BLOCK (kb_key_block_signature spec_layout)) /\
  key_block_size spec_layout (key_block_mem 120 8 264) BLOCK <= 312.
Proof.
  destruct (accepted_key_block_sizes spec_layout stub_crypto
              (key_block_mem 120 8 264) BLOCK 312 ROOT) as (H1 & _ & _ & H2 & _);
    [closed ..|].
  split; [exact H1|exact H2].
Defined.

Lemma accepted_preamble_sizes_witness :
  data_size firmware_preamble_mem (field BLOCK (fp_preamble_signature spec_layout))
  <= fp_size spec_layout firmware_preamble_mem BLOCK /\
  kp_size spec_layout (kernel_preamble_mem 240 (pad 16 5)) BLOCK <= 256.
Proof.
  destruct (accepted_preamble_sizes spec_layout stub_crypto firmware_preamble_mem
              BLOCK 256 root_rsa ltac:(closed)) as (Hf & _).
  destruct (accepted_preamble_sizes spec_layout stub_crypto
              (kernel_preamble_mem 240 (pad 16 5)) BLOCK 256 root_rsa ltac:(closed))
    as (_ & Hk).
  split.
  - apply Hf; closed.
  - apply Hk; closed.
Defined.

Lemma accepted_firmware_preamble_contained_witness :
  member_inside_spec BLOCK (fp_size spec_layout firmware_preamble_mem BLOCK)
    (field BLOCK (fp_kernel_subkey spec_layout)) sizeof_VbPublicKey
    (key_offset firmware_preamble_mem (field BLOCK (fp_kernel_subkey spec_layout)))
    (key_size firmware_preamble_mem (field BLOCK (fp_kernel_subkey spec_layout))).
Proof.
  destruct (accepted_firmware_preamble_contained spec_layout stub_crypto
              firmware_preamble_mem BLOCK 256 root_rsa) as (_ & _ & _ & H);
    [closed ..|].
  exact H.
Defined.

Lemma ReChecksumKeyBlock_then_verify_witness :
  result (KeyBlockVerify spec_layout stub_crypto tampered_key_block_mem BLOCK 312 0)
  = VBOOT_KEY_BLOCK_HASH /\
  checksum_matches spec_layout stub_crypto
    (ReChecksumKeyBlock spec_layout stub_crypto tampered_key_block_mem BLOCK) BLOCK /\
  result (KeyBlockVerify spec_layout stub_crypto
            (ReChecksumKeyBlock spec_layout stub_crypto tampered_key_block_mem BLOCK)
            BLOCK 312 0) = VBOOT_SUCCESS.
Proof.
  split; [closed|]. split; [|closed].
  destruct (ReChecksumKeyBlock_then_verify spec_layout stub_crypto
              tampered_key_block_mem BLOCK 312) as (H & _);
    [closed ..|].
  exact H.
Defined.

(** ** The signer's helpers *)

Section SignerFacts.

Variable C : CryptoLib.
Variable T : PaddingTables.
Variable E : SignerEnv.



End SignerFacts.



(** ** Bounds closure of an accepted key block *)

Section KeyBlockContainment.

Variable L : StructLayout.
Variable C : CryptoLib.

(** X21.  Bounds closure of an accepted key block, where the sub-objects
    are described without wrap-around: the signature that was checked
    lies inside the first [key_block_size] bytes, header and payload, and
    the data key lies inside the first [key_block_size] bytes and inside
    the signed prefix. *)
Theorem accepted_key_block_contained (m : mem) (block size key : Z) :
  let sig := if key =? 0 then field block (kb_key_block_checksum L)
             else field block (kb_key_block_signature L) in
  let sig_off := if key =? 0 then kb_key_block_checksum L
                 else kb_key_block_signature L in
  let data_key := field block (kb_data_key L) in
  is_uint64 block ->
  sub_object_in_range block sig_off sizeof_VbSignature
    (sig_offset m sig) (sig_size m sig) ->
  sub_object_in_range block (kb_data_key L) sizeof_VbPublicKey
    (key_offset m data_key) (key_size m data_key) ->
  result (KeyBlockVerify L C m block size key) = VBOOT_SUCCESS ->
  key_block_size L m block <= size /\
  member_inside_spec block (key_block_size L m block) sig sizeof_VbSignature
    (sig_offset m sig) (sig_size m sig) /\
  member_inside_spec block (key_block_size L m block) data_key sizeof_VbPublicKey
    (key_offset m data_key) (key_size m data_key) /\
  member_inside_spec block (data_size m sig) data_key sizeof_VbPublicKey
    (key_offset m data_key) (key_size m data_key).
Proof.
  intros sig sig_off data_key Hb Rs Rk Hok.
  destruct (KeyBlockVerify_ok_signed L C m block size key Hok) as (_ & Hi1 & Hi2).
  fold sig in Hi2. fold data_key in Hi1, Hi2.
  assert (Hhdr : key_block_size L m block <= size /\
                 VerifySignatureInside m block (key_block_size L m block) sig = 0).
  { unfold sig. destruct (Z.eqb_spec key 0) as [Hk|Hk].
    - rewrite Hk in Hok. apply KeyBlockVerify_hash_ok_iff in Hok. cbn zeta in Hok.
      destruct Hok as ((_ & _ & H) & Hin & _). split; assumption.
    - apply KeyBlockVerify_keyed_ok_iff in Hok; [|exact Hk]. cbn zeta in Hok.
      destruct Hok as ((_ & _ & H) & Hin & _). split; assumption. }
  destruct Hhdr as (Hsize & Hin).
  pose proof (load_range m (field sig 0)) as A1.
  pose proof (load_range m (field sig 8)) as A2.
  pose proof (load_range m (field data_key offsetof_key_offset)) as A3.
  pose proof (load_range m (field data_key offsetof_key_size)) as A4.
  unfold is_uint64 in A1, A2, A3, A4.
  assert (Esig : sig = field block sig_off)
    by (unfold sig, sig_off; destruct (key =? 0); reflexivity).
  split; [exact Hsize|].
  split; [|split].
  - rewrite Esig in *. apply member_contained; try assumption;
      unfold sizeof_VbSignature, sig_offset, sig_size; lia.
  - apply member_contained; try assumption;
      unfold sizeof_VbPublicKey, key_offset, key_size; lia.
  - apply member_contained; try assumption;
      unfold sizeof_VbPublicKey, key_offset, key_size; lia.
Qed.

End KeyBlockContainment.

Lemma accepted_key_block_contained_witness :
  member_inside_spec BLOCK
    (data_size (key_block_mem 120 8 264)
       (field BLOCK (kb_key_block_signature spec_layout)))
    (field BLOCK (kb_data_key spec_layout)) sizeof_VbPublicKey
    (key_offset (key_block_mem 120 8 264) (field BLOCK (kb_data_key spec_layout)))
    (key_size (key_block_mem 120 8 264) (field BLOCK (kb_data_key spec_layout))).
Proof.
  destruct (accepted_key_block_contained spec_layout stub_crypto
              (key_block_mem 120 8 264) BLOCK 312 ROOT) as (_ & _ & _ & H);
    [closed ..|].
  exact H.
Defined.
